(** * Kalshi data agent, cat-facts and public-holidays scripts

    A shallow embedding of [agent/kalshi_agent.py],
    [assignment-scripts/cat-facts.py] and [assignment-scripts/holidays.py].

    - Python values coming out of [response.json()] are the inductive
      [pyval]; a dict is a [gmap string pyval], a [str] is the [string]
      of its UTF-8 bytes.
    - Python floats are IEEE 754 binary64 numbers: [spec_float] with
      precision 53 and maximal exponent 1024, rounded to nearest even.
    - A method of the agent is a function of the agent record that
      returns the new record, the log records it emitted and its return
      value; a method that can raise returns a [result].
    - The network, the clock and the file system are inputs: one
      [http_result] per request, the text of
      [datetime.now().isoformat()], and a record telling which paths can
      be created and opened for writing. [print] is taken to return:
      the terminal accepts the text.
    - [json.dump] and [json.load] are modelled in [Json], from the
      documentation of the library. *)

From Stdlib Require Import ZArith Bool Lia.
From Stdlib Require Import Floats.SpecFloat.
From stdpp Require Import gmap strings list fin_maps.

#[local] Set Warnings "-register-all".
#[local] Open Scope Z_scope.

(** ** Python values, exceptions and numbers *)

Module Py.

(** The exception classes the three scripts can meet. The first five are
    those of [requests.exceptions]; [JSONDecodeError] is what
    [response.json()] raises on a body that is not JSON. *)
Inductive exn :=
| Timeout
| ConnectionError
| HTTPError
| JSONDecodeError
| RequestException
| ZeroDivisionError
| OverflowError
| UnicodeEncodeError
| AttributeError
| KeyError
| IndexError
| TypeError
| OSError
| OtherException.

Inductive result (A : Type) :=
| Ok (a : A)
| Raise (e : exn).
Arguments Ok {A} a.
Arguments Raise {A} e.

(** Sequencing: the first exception raised ends the computation. *)
#[export] Instance result_bind : MBind result := λ A B k r,
  match r with
  | Ok a => k a
  | Raise e => Raise e
  end.

(** [isinstance(e, requests.exceptions.RequestException)] *)
Definition is_request_exception (e : exn) : bool :=
  match e with
  | Timeout | ConnectionError | HTTPError | JSONDecodeError
  | RequestException => true
  | _ => false
  end.

(** *** binary64 *)

Definition float := spec_float.
Definition prec : Z := 53.
Definition emax : Z := 1024.

Definition fadd : float -> float -> float := SFadd prec emax.
Definition fsub : float -> float -> float := SFsub prec emax.
Definition fabs : float -> float := SFabs.
Definition fmul : float -> float -> float := SFmul prec emax.
Definition fdiv : float -> float -> float := SFdiv prec emax.
Definition flt : float -> float -> bool := SFltb.
Definition fle : float -> float -> bool := SFleb.

(** [math.isfinite(f)]: neither an infinity nor NaN. *)
Definition finite (f : float) : bool :=
  match f with
  | S754_zero _ | S754_finite _ _ _ => true
  | S754_infinity _ | S754_nan => false
  end.

(** [f != 0.0] *)
Definition nonzero (f : float) : bool :=
  match f with
  | S754_zero _ => false
  | _ => true
  end.

(** [float(z)] for an integer [z], rounded to nearest even. CPython
    raises OverflowError from 2^1024 on; here the conversion saturates
    to infinity. *)
Definition float_of_int (z : Z) : float :=
  binary_normalize prec emax z 0 false.

(** The float literal [n/d] written in decimal, e.g. [0.8] is
    [decimal 8 10]: the binary64 number nearest to the quotient. *)
Definition decimal (n : positive) (d : positive) : float :=
  fdiv (S754_finite false n 0) (S754_finite false d 0).

Definition f0_5 : float := Eval vm_compute in decimal 5 10.
Definition f0_8 : float := Eval vm_compute in decimal 8 10.
Definition f0_9 : float := Eval vm_compute in decimal 9 10.
Definition f1_0 : float := Eval vm_compute in float_of_int 1.
Definition f2_0 : float := Eval vm_compute in float_of_int 2.

(** [a / b] on two ints: ZeroDivisionError when [b] is 0, otherwise the
    binary64 number nearest to the exact quotient ([0 / b] carries the
    sign of [b]). The division works on the integers themselves, so
    there is no intermediate rounding of [a] or [b]. CPython raises
    OverflowError when the quotient is beyond the binary64 range; here
    it is infinity. *)
Definition int_sf (z : Z) : float :=
  match z with
  | Z0 => S754_zero false
  | Zpos p => S754_finite false p 0
  | Zneg p => S754_finite true p 0
  end.

Definition int_truediv (a b : Z) : result float :=
  if b =? 0 then Raise ZeroDivisionError
  else Ok (fdiv (int_sf a) (int_sf b)).

(** A Python number that is an [int] or a [float]. *)
Inductive num :=
| NInt (z : Z)
| NFloat (f : float).

Definition num_add (x y : num) : num :=
  match x, y with
  | NInt a, NInt b => NInt (a + b)
  | NInt a, NFloat g => NFloat (fadd (float_of_int a) g)
  | NFloat f, NInt b => NFloat (fadd f (float_of_int b))
  | NFloat f, NFloat g => NFloat (fadd f g)
  end.

(** The built-in [sum(xs)], as CPython 3.12 and later compute it. The
    start value is the int 0 and ints are added exactly; the first float
    [x] turns the total into the float [i + x]. From then on every float
    [x] is added as [t = f + x] while what the rounding of [t] dropped,
    [(f - t) + x] when [|f| >= |x|] and [(x - t) + f] otherwise, is
    collected in a second float [c] (Neumaier's compensation); an int is
    added to [f] alone. At the end [c] is added to the total when it is
    neither zero nor infinite nor NaN. (Before 3.12 there is no [c]: the
    result can differ in the last bit. The ints are taken to fit a C
    long, as counts do.) *)
Definition dropped (f x : float) : float :=
  let t := fadd f x in
  if fle (fabs x) (fabs f) then fadd (fsub f t) x else fadd (fsub x t) f.

Fixpoint sum_floats (f c : float) (xs : list num) : float :=
  match xs with
  | [] => if nonzero c && finite c then fadd f c else f
  | NFloat x :: rest => sum_floats (fadd f x) (fadd c (dropped f x)) rest
  | NInt z :: rest => sum_floats (fadd f (float_of_int z)) c rest
  end.

Fixpoint sum_ints (i : Z) (xs : list num) : num :=
  match xs with
  | [] => NInt i
  | NInt z :: rest => sum_ints (i + z) rest
  | NFloat x :: rest =>
      NFloat (sum_floats (fadd (float_of_int i) x) (S754_zero false) rest)
  end.

Definition sum (xs : list num) : num := sum_ints 0 xs.

(** [x / d] for a number [x] and an int [d]. *)
Definition num_truediv (x : num) (d : Z) : result float :=
  match x with
  | NInt a => int_truediv a d
  | NFloat f =>
      if d =? 0 then Raise ZeroDivisionError
      else Ok (fdiv f (float_of_int d))
  end.

(** *** Values *)

Inductive pyval :=
| PNone
| PBool (b : bool)
| PInt (z : Z)
| PFloat (f : float)
| PStr (s : string)
| PList (l : list pyval)
| PDict (d : gmap string pyval).

(** [bool(v)]. A float is false when it is [0.0] or [-0.0]; NaN is true. *)
Definition truthy (v : pyval) : bool :=
  match v with
  | PNone => false
  | PBool b => b
  | PInt z => negb (z =? 0)
  | PFloat (S754_zero _) => false
  | PFloat _ => true
  | PStr s => negb (String.eqb s "")
  | PList l => match l with [] => false | _ => true end
  | PDict d => negb (bool_decide (d = ∅))
  end.

(** [v == s] for a string literal [s]: only a [str] equals a [str]. *)
Definition eq_str (v : pyval) (s : string) : bool :=
  match v with
  | PStr t => String.eqb t s
  | _ => false
  end.

(** [isinstance(v, (int, float))]; [bool] is a subclass of [int]. *)
Definition is_int_or_float (v : pyval) : bool :=
  match v with
  | PBool _ | PInt _ | PFloat _ => true
  | _ => false
  end.

(** [d.get(k)]: the value, or [None]. *)
Definition get (d : gmap string pyval) (k : string) : pyval :=
  default PNone (d !! k).

(** [d.get(k, dflt)] *)
Definition get_default (d : gmap string pyval) (k : string) (dflt : pyval)
  : pyval :=
  default dflt (d !! k).

(** [v.get(k, dflt)] on any value: only a dict has the method. *)
Definition val_get_default (v : pyval) (k : string) (dflt : pyval)
  : result pyval :=
  match v with
  | PDict d => Ok (get_default d k dflt)
  | _ => Raise AttributeError
  end.

(** [v.get(k)] on any value. *)
Definition val_get (v : pyval) (k : string) : result pyval :=
  val_get_default v k PNone.

(** A [string] holds a [str] in UTF-8: each code point is a leading
    byte followed by up to three continuation bytes, those from 0x80 to
    0xBF. A lone surrogate (U+D800 to U+DFFF), which [response.json()]
    makes of an escape such as [\ud83d] and which has no UTF-8 encoding,
    is held as the three bytes that the same scheme gives it: 0xED, a
    byte from 0xA0 to 0xBF and a continuation byte. *)
Definition is_continuation (c : Ascii.ascii) : bool :=
  let n := Ascii.N_of_ascii c in ((128 <=? n) && (n <? 192))%N.

(** The code points of a [str], each as a string of its own. *)
Fixpoint characters (s : string) : list string :=
  match s with
  | EmptyString => []
  | String c rest =>
      let tail := characters rest in
      match rest with
      | String c' _ =>
          if is_continuation c' then
            match tail with
            | x :: xs => String c x :: xs
            | [] => [String c EmptyString]
            end
          else String c EmptyString :: tail
      | EmptyString => String c EmptyString :: tail
      end
  end.

(** Whether some code point of the [str] is a lone surrogate. *)
Fixpoint has_surrogate (s : string) : bool :=
  match s with
  | EmptyString => false
  | String c rest =>
      match rest with
      | EmptyString => false
      | String c' _ =>
          ((Ascii.N_of_ascii c =? 237)
           && (160 <=? Ascii.N_of_ascii c') && (Ascii.N_of_ascii c' <? 192))%N
          || has_surrogate rest
      end
  end.

(** [v[0]] for a value [v] read from JSON, whose dict keys are strings;
    the first element of a [str] is its first code point. *)
Definition index0 (v : pyval) : result pyval :=
  match v with
  | PList (x :: _) => Ok x
  | PList [] => Raise IndexError
  | PStr s =>
      match characters s with
      | c :: _ => Ok (PStr c)
      | [] => Raise IndexError
      end
  | PDict _ => Raise KeyError
  | _ => Raise TypeError
  end.

(** [len(v)]; the length of a [str] is the number of its code points. *)
Definition len (v : pyval) : result Z :=
  match v with
  | PList l => Ok (Z.of_nat (length l))
  | PStr s => Ok (Z.of_nat (length (characters s)))
  | PDict d => Ok (Z.of_nat (size d))
  | _ => Raise TypeError
  end.

(** [sum(xs)] for a generator of ints. *)
Definition sum_int (xs : list Z) : Z := foldl Z.add 0 xs.

(** [sum(1 for x in xs if p(x))] *)
Definition count_if {A} (p : A -> bool) (xs : list A) : Z :=
  sum_int ((λ _, 1) <$> List.filter p xs).

(** *** The outside world *)

(** What one [requests.get] does: it raises, or it returns a response
    with a status code and a body; [body] is [None] when the body is
    not JSON, so that [response.json()] raises. *)
Inductive http_result :=
| HttpRaises (e : exn)
| HttpResponse (status : Z) (body : option pyval).

(** [response.json()] *)
Definition json (body : option pyval) : result pyval :=
  match body with
  | Some v => Ok v
  | None => Raise JSONDecodeError
  end.

(** What the scripts do to the file system. [WriteJson path value]:
    the file at [path] is opened for writing and [json.dump] is called
    on [value] and the file. *)
Inductive fs_event :=
| MakeDirs (path : string)
| OpenAppend (path : string)
| WriteJson (path : string) (value : pyval).

(** The paths of the JSON files written, in the order of writing. *)
Definition json_written (evs : list fs_event) : list string :=
  omap (λ ev, match ev with WriteJson path _ => Some path | _ => None end)
       evs.

(** The file system as the scripts see it: which directories
    [os.makedirs(.., exist_ok=True)] can create and which files
    [open(.., 'w')] can open. With [ensure_ascii] left on, as in
    [save_reports], [json.dump] on a value made of [pyval]s is taken
    not to raise; the two scripts turn it off, see [Json.dump]. *)
Record file_system := {
  can_makedirs : string -> bool;
  can_open : string -> bool
}.

(** A file system on which every directory can be made and every file
    opened. *)
Definition all_writable : file_system :=
  {| can_makedirs := λ _, true; can_open := λ _, true |}.

Inductive level := INFO | WARNING | ERROR.

End Py.

Export Py.

(** ** The JSON files *)

Module Json.

(** Modelled from the spec: [json.dump] and [json.load] belong to
    Python's standard library, not to the code under src/; the types
    and functions of this module follow the conversion tables of the
    library's documentation.

    [doc] is a JSON text read by its grammar, without its white space.
    A number is an integer literal or a literal with a fraction or an
    exponent; [JReal f] is the literal that [repr] gives the float [f],
    the shortest that reads back as [f]. [NaN], [Infinity] and
    [-Infinity] are outside the JSON grammar; the library writes and
    reads them all the same. [JString s] is the string literal that
    spells [s], whatever its escapes. *)
Inductive doc :=
| JNull
| JTrue
| JFalse
| JInt (z : Z)
| JReal (f : float)
| JNaN
| JInfinity
| JMinusInfinity
| JString (s : string)
| JArray (items : list doc)
| JObject (members : list (string * doc)).

(** Modelled from the spec: the text that [json.dump] makes of a value,
    by the table dict to object, list to array, str to string, int and
    float to number, True to true, False to false, None to null. *)
Fixpoint encode (v : pyval) : doc :=
  match v with
  | PNone => JNull
  | PBool b => if b then JTrue else JFalse
  | PInt z => JInt z
  | PFloat f =>
      match f with
      | S754_nan => JNaN
      | S754_infinity s => if s then JMinusInfinity else JInfinity
      | _ => JReal f
      end
  | PStr s => JString s
  | PList l => JArray (encode <$> l)
  | PDict d => JObject (map_to_list (encode <$> d))
  end.

(** Whether some [str] of the value, a key or a value, holds a lone
    surrogate. *)
Fixpoint surrogates (v : pyval) : bool :=
  match v with
  | PStr s => has_surrogate s
  | PList l => existsb surrogates l
  | PDict d =>
      map_fold (λ k x found, has_surrogate k || surrogates x || found)
               false d
  | _ => false
  end.

(** Modelled from the spec: [json.dump(value, f, indent=2,
    ensure_ascii=..)] on a file opened for writing. With [ensure_ascii]
    on, every character outside ASCII is written as an escape and the
    call returns. With [ensure_ascii] off the characters are written as
    they are: on a file opened with [encoding="utf-8"], writing a lone
    surrogate raises UnicodeEncodeError, and the text written so far is
    not a JSON document. *)
Definition dump (ensure_ascii : bool) (v : pyval) : result doc :=
  if negb ensure_ascii && surrogates v then Raise UnicodeEncodeError
  else Ok (encode v).

(** Modelled from the spec: the value that [json.load] makes of a JSON
    text, by the table object to dict, array to list, string to str,
    integer literal to int, other number to float, true to True, false
    to False, null to None; of two members of an object with the same
    name the later one stays. *)
Fixpoint load (j : doc) : pyval :=
  match j with
  | JNull => PNone
  | JTrue => PBool true
  | JFalse => PBool false
  | JInt z => PInt z
  | JReal f => PFloat f
  | JNaN => PFloat S754_nan
  | JInfinity => PFloat (S754_infinity false)
  | JMinusInfinity => PFloat (S754_infinity true)
  | JString s => PStr s
  | JArray items => PList (load <$> items)
  | JObject members =>
      PDict (list_to_map (reverse (prod_map id load <$> members)))
  end.

(** The number of lists and dicts nested in a value. *)
Fixpoint nodes (v : pyval) : nat :=
  match v with
  | PList l => S (foldr (λ x n, nodes x + n)%nat O l)
  | PDict d => S (map_fold (λ _ x n, nodes x + n)%nat O d)
  | _ => O
  end.

(** The lone surrogate U+D83D, the first half of an emoji. *)
Definition lone_surrogate : string :=
  String (Ascii.ascii_of_N 237)
    (String (Ascii.ascii_of_N 160)
       (String (Ascii.ascii_of_N 189) EmptyString)).

End Json.

(** ** agent/kalshi_agent.py *)

Module Kalshi.

(** The texts handed to [self.logger], with the values they format. *)
Inductive message :=
| StoredDataPoint (n : Z) (num_markets : pyval)
    (* "Stored data point {n}/{num_markets}" *)
| ApiRequestFailed (status : Z)
    (* "API request failed: {status}" *)
| RequestError (e : exn)
    (* "Request error: {e}" *)
| LowSuccessRate (delay : float)
    (* "Low success rate, increasing delay to {delay:.2f}x" *)
| HighSuccessRate (delay : float)
    (* "High success rate, decreasing delay to {delay:.2f}x" *)
| AllReportsSaved.
    (* "All reports saved successfully" *)

Definition log_record : Type := level * message.

(** The attributes of [KalshiDataAgent] that the methods read or write.
    [collection_stats] is a dict with four fixed keys; its three
    counters are fields here, and ['start_time'] is a clock reading. *)
Record agent := mkAgent {
  config : gmap string pyval;
  data_store : list (gmap string pyval);
  start_time : Z;
  total_requests : Z;
  successful_requests : Z;
  failed_requests : Z;
  delay_multiplier : float
}.

Definition set_data_store (a : agent) (ds : list (gmap string pyval)) :=
  mkAgent (config a) ds (start_time a) (total_requests a)
    (successful_requests a) (failed_requests a) (delay_multiplier a).
Definition set_total_requests (a : agent) (n : Z) :=
  mkAgent (config a) (data_store a) (start_time a) n
    (successful_requests a) (failed_requests a) (delay_multiplier a).
Definition set_successful_requests (a : agent) (n : Z) :=
  mkAgent (config a) (data_store a) (start_time a) (total_requests a)
    n (failed_requests a) (delay_multiplier a).
Definition set_failed_requests (a : agent) (n : Z) :=
  mkAgent (config a) (data_store a) (start_time a) (total_requests a)
    (successful_requests a) n (delay_multiplier a).
Definition set_delay_multiplier (a : agent) (m : float) :=
  mkAgent (config a) (data_store a) (start_time a) (total_requests a)
    (successful_requests a) (failed_requests a) m.



Definition _default_config : gmap string pyval :=
  {[ "base_delay" := PFloat f1_0;
     "num_markets" := PInt 5;
     "status_filter" := PStr "open" ]}.

(** [__init__], with the configuration it ends up with and the clock
    reading taken for ['start_time']. *)
Definition init (cfg : gmap string pyval) (now : Z) : agent :=
  mkAgent cfg [] now 0 0 0 f1_0.

Definition get_success_rate (a : agent) : result float :=
  let total := total_requests a in
  if total >? 0 then int_truediv (successful_requests a) total
  else Ok f1_0.

(** The quotient that [get_success_rate] returns once a request has
    been counted. *)
Definition rate_of (a : agent) : float :=
  fdiv (int_sf (successful_requests a)) (int_sf (total_requests a)).

Definition adjust_strategy (a : agent)
  : result (agent * list log_record) :=
  success_rate ← get_success_rate a;
  if flt success_rate f0_5 then
    let a' := set_delay_multiplier a
                (fmul (delay_multiplier a) (float_of_int 2)) in
    Ok (a', [(WARNING, LowSuccessRate (delay_multiplier a'))])
  else if flt f0_9 success_rate then
    let a' := set_delay_multiplier a (fmul (delay_multiplier a) f0_8) in
    Ok (a', [(INFO, HighSuccessRate (delay_multiplier a'))])
  else Ok (a, []).

(** [markets[0] if markets else None] *)
Definition first_market (markets : pyval) : result pyval :=
  if truthy markets then index0 markets else Ok PNone.

(** The request itself is the input [r]; the method counts it, and
    turns every exception raised inside its [try] into [None]. *)
Definition make_api_request (r : http_result) (a : agent)
  : agent * list log_record * pyval :=
  let a := set_total_requests a (total_requests a + 1) in
  match r with
  | HttpRaises e =>
      (set_failed_requests a (failed_requests a + 1),
       [(ERROR, RequestError e)], PNone)
  | HttpResponse status body =>
      if status =? 200 then
        let a := set_successful_requests a (successful_requests a + 1) in
        match (v ← json body;
               markets ← val_get_default v "markets" (PList []);
               first_market markets) with
        | Ok market => (a, [], market)
        | Raise e =>
            (set_failed_requests a (failed_requests a + 1),
             [(ERROR, RequestError e)], PNone)
        end
      else
        (set_failed_requests a (failed_requests a + 1),
         [(ERROR, ApiRequestFailed status)], PNone)
  end.

Definition collect_batch (r : http_result) (a : agent)
  : result (agent * list log_record * pyval) :=
  success_rate ← get_success_rate a;
  '(a, log1) ← (if flt success_rate f0_8 then adjust_strategy a
                else Ok (a, []));
  let '(a, log2, data) := make_api_request r a in
  Ok (a, log1 ++ log2, data).

(** [now] is the text of [datetime.now().isoformat()]. *)
Definition process_data (data : pyval) (now : string)
  : result (gmap string pyval) :=
  ticker ← val_get_default data "ticker" (PStr "N/A");
  title ← val_get_default data "title" (PStr "N/A");
  category ← val_get_default data "category" (PStr "Unknown");
  status ← val_get_default data "status" (PStr "Unknown");
  last_price ← val_get_default data "last_price" (PInt 0);
  volume ← val_get_default data "volume" (PInt 0);
  Ok (<["ticker" := ticker]>
      (<["title" := title]>
      (<["category" := category]>
      (<["status" := status]>
      (<["last_price" := last_price]>
      (<["volume" := volume]>
      (<["collection_timestamp" := PStr now]> ∅))))))).

(** The list that [validate_data] loops over. *)
Definition required_fields : list string := ["ticker"; "title"; "category"].

(** The loop returns False at the first field that fails, True after
    the last one. *)
Definition validate_data (data : gmap string pyval) : bool :=
  forallb
    (λ field, negb (negb (truthy (get data field))
                    || eq_str (get data field) "N/A"))
    required_fields.

Definition process_and_store (data : pyval) (now : string) (a : agent)
  : result (agent * list log_record) :=
  processed ← process_data data now;
  if validate_data processed then
    let a := set_data_store a (data_store a ++ [processed]) in
    Ok (a, [(INFO, StoredDataPoint (Z.of_nat (length (data_store a)))
                     (get_default (config a) "num_markets" (PInt 5)))])
  else Ok (a, []).

(** [v and v != 'N/A'] *)
Definition filled (v : pyval) : bool :=
  truthy v && negb (eq_str v "N/A").

Definition check_completeness (a : agent) : result num :=
  match data_store a with
  | [] => Ok (NInt 0)
  | _ =>
      let total_fields :=
        sum_int ((λ item, Z.of_nat (size item)) <$> data_store a) in
      let filled_fields :=
        sum_int ((λ item : gmap string pyval,
                    count_if filled (map_to_list item).*2)
                 <$> data_store a) in
      if total_fields >? 0
      then q ← int_truediv filled_fields total_fields; Ok (NFloat q)
      else Ok (NInt 0)
  end.

Definition check_accuracy (a : agent) : result num :=
  match data_store a with
  | [] => Ok (NInt 0)
  | _ =>
      let accurate :=
        count_if
          (λ item, is_int_or_float (get item "last_price")
                   && is_int_or_float (get item "volume"))
          (data_store a) in
      q ← int_truediv accurate (Z.of_nat (length (data_store a)));
      Ok (NFloat q)
  end.

Definition check_consistency (a : agent) : result num :=
  match data_store a with
  | [] | [_] => Ok (NFloat f1_0)
  | first :: _ =>
      let first_keys : gset string := dom first in
      let consistent :=
        count_if
          (λ item : gmap string pyval,
             bool_decide (dom item = first_keys))
          (data_store a) in
      q ← int_truediv consistent (Z.of_nat (length (data_store a)));
      Ok (NFloat q)
  end.

(** The dict [quality_metrics] has four keys, so its [len] is 4 and
    its values, in insertion order, are the four scores. *)
Definition assess_data_quality (a : agent) : result num :=
  match data_store a with
  | [] => Ok (NInt 0)
  | _ =>
      completeness ← check_completeness a;
      accuracy ← check_accuracy a;
      consistency ← check_consistency a;
      let quality_metrics :=
        [completeness; accuracy; consistency; NFloat f1_0] in
      q ← num_truediv (Py.sum quality_metrics)
            (Z.of_nat (length quality_metrics));
      Ok (NFloat q)
  end.

Definition json_outputs : string := "../json-outputs".
Definition collected_data_json : string :=
  "../json-outputs/kalshi_collected_data.json".
Definition collection_summary_json : string :=
  "../json-outputs/kalshi_collection_summary.json".
Definition quality_report_json : string :=
  "../json-outputs/kalshi_quality_report.json".
Definition metadata_json : string :=
  "../json-outputs/kalshi_metadata.json".

(** [with open(path, 'w') as f: json.dump(value, f, indent=2)] for each
    pair in turn; the first [open] that fails raises and ends it. *)
Fixpoint dump_all (fs : file_system) (files : list (string * pyval))
  : list fs_event * result () :=
  match files with
  | [] => ([], Ok ())
  | (path, value) :: rest =>
      if can_open fs path then
        let '(evs, r) := dump_all fs rest in
        (WriteJson path value :: evs, r)
      else ([], Raise OSError)
  end.

(** Returns what was done to the file system, what was logged, and
    whether the method returned or raised. *)
Definition save_reports (fs : file_system) (a : agent)
    (summary quality_report metadata : pyval)
  : list fs_event * list log_record * result () :=
  if can_makedirs fs json_outputs then
    let '(evs, r) :=
      dump_all fs
        [(collected_data_json, PList (PDict <$> data_store a));
         (collection_summary_json, summary);
         (quality_report_json, quality_report);
         (metadata_json, metadata)] in
    match r with
    | Ok _ => (MakeDirs json_outputs :: evs,
               [(INFO, AllReportsSaved)], Ok ())
    | Raise e => (MakeDirs json_outputs :: evs, [], Raise e)
    end
  else ([], [], Raise OSError).

(** Lines 65 to 67 of [run_collection], the part of the loop body that
    writes to the agent: [collect_batch], and [process_and_store] when
    the batch is true. ([assess_performance] and [respectful_delay],
    which follow, only read the agent.) The agent is returned even when
    an exception ends the iteration, since [collect_batch] has already
    updated it. *)
Definition collect_and_store (r : http_result) (now : string) (a : agent)
  : agent * list log_record * result () :=
  match collect_batch r a with
  | Raise e => (a, [], Raise e)
  | Ok (a1, log1, data) =>
      if truthy data then
        match process_and_store data now a1 with
        | Raise e => (a1, log1, Raise e)
        | Ok (a2, log2) => (a2, log1 ++ log2, Ok ())
        end
      else (a1, log1, Ok ())
  end.

(** Sample states: a market as the API returns it without price or
    volume, the agent after storing it, and an agent that has counted
    one success in two requests. *)
Definition rain_market : gmap string pyval :=
  {[ "ticker" := PStr "KXRAIN"; "title" := PStr "Rain tomorrow" ]}.

Definition rain_record : gmap string pyval :=
  <["ticker" := PStr "KXRAIN"]>
  (<["title" := PStr "Rain tomorrow"]>
  (<["category" := PStr "Unknown"]>
  (<["status" := PStr "Unknown"]>
  (<["last_price" := PInt 0]>
  (<["volume" := PInt 0]>
  (<["collection_timestamp" := PStr "2024-05-01T12:00:00"]> ∅)))))).

Definition one_market : agent :=
  mkAgent _default_config [rain_record] 0 1 1 0 f1_0.

Definition half_failed : agent :=
  mkAgent _default_config [] 0 2 1 1 f1_0.

Definition mostly_failed : agent :=
  mkAgent _default_config [] 0 4 1 3 f1_0.

(** The methods that write to the agent, as operations on it. *)
Inductive op :=
| OpAdjustStrategy
| OpMakeApiRequest (r : http_result)
| OpCollectBatch (r : http_result)
| OpProcessAndStore (data : pyval) (now : string)
| OpCollectAndStore (r : http_result) (now : string).

(** The agent after an operation; an operation that raises leaves the
    agent as it was when the exception left the method. *)
Definition run_op (o : op) (a : agent) : agent :=
  match o with
  | OpAdjustStrategy =>
      match adjust_strategy a with Ok (a', _) => a' | Raise _ => a end
  | OpMakeApiRequest r => (make_api_request r a).1.1
  | OpCollectBatch r =>
      match collect_batch r a with Ok (a', _, _) => a' | Raise _ => a end
  | OpProcessAndStore data now =>
      match process_and_store data now a with
      | Ok (a', _) => a'
      | Raise _ => a
      end
  | OpCollectAndStore r now => (collect_and_store r now a).1.1
  end.

Definition run_ops (os : list op) (a : agent) : agent :=
  foldl (λ a o, run_op o a) a os.

(** The operations of the collection loop: every one but a call of
    [adjust_strategy] from outside [collect_batch]. *)
Definition in_flow (o : op) : bool :=
  match o with
  | OpAdjustStrategy => false
  | _ => true
  end.

(** The delay multipliers the loop can reach from 1.0 by doubling:
    2^(e+52) for e from -52 to 971, and then infinity. *)
Definition pow2 (e : Z) : float := S754_finite false 4503599627370496 e.

Definition delay_exponents : list Z := seqZ (-52) 1024.

Definition is_delay (m : float) : Prop :=
  m = S754_infinity false ∨ ∃ e, -52 <= e <= 971 ∧ m = pow2 e.

(** Doubling [pow2 e] gives [pow2 (e + 1)], or infinity at the top;
    the result is no smaller, and [pow2 e] is at least 1.0 and compares
    equal to itself. *)
Definition doubles_ok (e : Z) : bool :=
  match fmul (pow2 e) (float_of_int 2) with
  | S754_finite false m e' =>
      (m =? 4503599627370496)%positive && (e' =? e + 1) && (e <? 971)
  | S754_infinity false => e =? 971
  | _ => false
  end
  && fle (pow2 e) (fmul (pow2 e) (float_of_int 2))
  && fle f1_0 (pow2 e)
  && fle (pow2 e) (pow2 e).

End Kalshi.

(** ** assignment-scripts/cat-facts.py *)

Module CatFacts.

Inductive message :=
| StartingToFetch (num_facts : Z)
    (* "Starting to fetch {num_facts} cat facts" *)
| RetrievedFact (k : Z)
    (* "Successfully retrieved fact {k}" *)
| NoFactFound (k : Z)
    (* "No fact found in response for request {k}" *)
| RequestFailed (k : Z) (status : Z)
    (* "API request {k} failed with status code: {status}" *)
| RequestTimedOut
| ConnectionErrorOccurred
| RequestErrorOccurred (e : exn)
| UnexpectedErrorOccurred (e : exn)
| RetrievedOutOf (n : Z) (num_facts : Z)
    (* "Successfully retrieved {n} out of {num_facts} requested facts" *)
| SavedFacts (n : Z) (filename : string)
| FailedToSave (e : exn).

Definition log_record : Type := level * message.

(** The body of the [for] loop at index [i], given the outcome [r] of
    its [requests.get]. *)
Definition fetch_one (i : nat) (r : http_result) (facts : list pyval)
  : result (list pyval * list log_record) :=
  match r with
  | HttpRaises e => Raise e
  | HttpResponse status body =>
      if status =? 200 then
        data ← json body;
        fact ← val_get data "fact";
        if truthy fact then
          Ok (facts ++ [fact], [(INFO, RetrievedFact (Z.of_nat i + 1))])
        else Ok (facts, [(WARNING, NoFactFound (Z.of_nat i + 1))])
      else Ok (facts, [(ERROR, RequestFailed (Z.of_nat i + 1) status)])
  end.

(** The four [except] clauses, in their order. *)
Definition handler (e : exn) : message :=
  match e with
  | Timeout => RequestTimedOut
  | ConnectionError => ConnectionErrorOccurred
  | _ => if is_request_exception e then RequestErrorOccurred e
         else UnexpectedErrorOccurred e
  end.

(** The [try] statement: the [for] loop from index [i] with [todo]
    iterations left, inside the handlers. [net k] is the outcome of the
    [k]-th call of [requests.get], counting from 0. The third component
    is the number of calls of [requests.get] made so far. *)
Fixpoint fetch_loop (net : nat -> http_result) (i todo : nat)
    (facts : list pyval) : list pyval * list log_record * nat :=
  match todo with
  | O => (facts, [], i)
  | S todo' =>
      match fetch_one i (net i) facts with
      | Raise e => (facts, [(ERROR, handler e)], S i)
      | Ok (facts', log1) =>
          let '(facts'', log2, n) := fetch_loop net (S i) todo' facts' in
          (facts'', log1 ++ log2, n)
      end
  end.

(** Returns the facts, the log and the number of requests made. *)
Definition get_cat_facts (num_facts : Z) (net : nat -> http_result)
  : list pyval * list log_record * nat :=
  let '(facts, log, n) := fetch_loop net 0 (Z.to_nat num_facts) [] in
  (facts,
   [(INFO, StartingToFetch num_facts)] ++ log ++
   [(INFO, RetrievedOutOf (Z.of_nat (length facts)) num_facts)],
   n).

Definition save_facts_to_json (fs : file_system) (facts : list pyval)
    (filename : string) : list fs_event * list log_record * bool :=
  let data : gmap string pyval := {[ "facts" := PList facts ]} in
  if can_open fs filename then
    match Json.dump false (PDict data) with
    | Ok _ =>
        ([WriteJson filename (PDict data)],
         [(INFO, SavedFacts (Z.of_nat (length facts)) filename)], true)
    | Raise e =>
        ([WriteJson filename (PDict data)], [(ERROR, FailedToSave e)],
         false)
    end
  else ([], [(ERROR, FailedToSave OSError)], false).

(** What a run of the script leaves behind. *)
Record run := {
  requests_made : nat;
  printed : list (Z * pyval);        (* "Cat fact {i}: {fact}" *)
  logged : list log_record;
  files : list fs_event
}.

(** The statements at the end of the file. *)
Definition script (net : nat -> http_result) (fs : file_system) : run :=
  let '(cat_facts, log1, n) := get_cat_facts 5 net in
  let printed := imap (λ i fact, (Z.of_nat i + 1, fact)) cat_facts in
  if truthy (PList cat_facts) then
    let '(evs, log2, _) := save_facts_to_json fs cat_facts "cat_facts.json" in
    {| requests_made := n; printed := printed;
       logged := log1 ++ log2; files := evs |}
  else
    {| requests_made := n; printed := printed;
       logged := log1; files := [] |}.

(** Sample networks: the API answers every request with a fact; and
    the same, except that the first request times out. *)
Definition always_a_fact : nat -> http_result :=
  λ _, HttpResponse 200 (Some (PDict {[ "fact" := PStr "Cats purr." ]})).

Definition timeout_first : nat -> http_result :=
  λ i, match i with
       | O => HttpRaises Timeout
       | S _ => always_a_fact i
       end.

(** The API answers every request with a fact that is a list holding
    one string, the lone surrogate that the JSON text [["\ud83d"]]
    spells. *)
Definition surrogate_fact : nat -> http_result :=
  λ _, HttpResponse 200
         (Some (PDict {[ "fact" := PList [PStr Json.lone_surrogate] ]})).

End CatFacts.

(** ** assignment-scripts/holidays.py *)

Module Holidays.

Inductive message :=
| FetchingHolidays (country_code : string) (year : Z)
| RetrievedHolidays (n : Z) (country_code : string)
| RequestTimeout (country_code : string)
| ConnectionErrorFor (country_code : string)
| HTTPErrorFor (country_code : string) (e : exn)
| RequestFailedFor (country_code : string) (e : exn)
| UnexpectedErrorFor (country_code : string) (e : exn)
| NoHolidaysToDisplay (country_code : string)
| SavedSummary
| FailedToSaveSummary (e : exn).

Definition log_record : Type := level * message.

Inductive output :=
| PrintHeader (country_code : string)   (* " - Holidays for {cc} -" *)
| PrintHoliday (date name : pyval)      (* "{date}: {name}" *)
| PrintFailed (country : string)        (* "Failed to get holidays for .." *)
| PrintJson (summary : pyval).          (* json.dumps(summary, indent=2) *)

(** [response.raise_for_status()] *)
Definition raise_for_status (status : Z) : result () :=
  if (400 <=? status) && (status <? 600) then Raise HTTPError else Ok ().

(** The five [except] clauses, in their order. *)
Definition handler (country_code : string) (e : exn) : message :=
  match e with
  | Timeout => RequestTimeout country_code
  | ConnectionError => ConnectionErrorFor country_code
  | HTTPError => HTTPErrorFor country_code e
  | _ => if is_request_exception e then RequestFailedFor country_code e
         else UnexpectedErrorFor country_code e
  end.

Definition get_public_holidays (country_code : string) (year : Z)
    (r : http_result) : pyval * list log_record :=
  let attempt : result (pyval * Z) :=
    match r with
    | HttpRaises e => Raise e
    | HttpResponse status body =>
        _ ← raise_for_status status;
        holidays ← json body;
        n ← len holidays;
        Ok (holidays, n)
    end in
  match attempt with
  | Ok (holidays, n) =>
      (holidays,
       [(INFO, FetchingHolidays country_code year);
        (INFO, RetrievedHolidays n country_code)])
  | Raise e =>
      (PNone,
       [(INFO, FetchingHolidays country_code year);
        (ERROR, handler country_code e)])
  end.

(** The elements a [for] loop draws from a value: those of a list, the
    keys of a dict, the characters of a string. (The keys come in the
    order of the map, not of insertion; [print_each] raises at the first
    of them, whichever it is, since a string has no [get].) *)
Definition iterate (v : pyval) : result (list pyval) :=
  match v with
  | PList l => Ok l
  | PDict d => Ok (PStr <$> (map_to_list d).*1)
  | PStr s => Ok (PStr <$> characters s)
  | _ => Raise TypeError
  end.

(** The [for] loop of [print_holiday_details]: what it printed before
    it ended or raised. *)
Fixpoint print_each (items : list pyval) : list output * result () :=
  match items with
  | [] => ([], Ok ())
  | holiday :: rest =>
      match (name ← val_get_default holiday "name" (PStr "Unknown");
             date ← val_get_default holiday "date" (PStr "Unknown");
             Ok (date, name)) with
      | Raise e => ([], Raise e)
      | Ok (date, name) =>
          let '(out, r) := print_each rest in
          (PrintHoliday date name :: out, r)
      end
  end.

Definition print_holiday_details (holidays : pyval) (country_code : string)
  : list output * list log_record * result () :=
  if negb (truthy holidays) then
    ([], [(WARNING, NoHolidaysToDisplay country_code)], Ok ())
  else
    match iterate holidays with
    | Raise e => ([PrintHeader country_code], [], Raise e)
    | Ok items =>
        let '(out, r) := print_each items in
        (PrintHeader country_code :: out, [], r)
    end.

(** A dict from country codes to counts, in insertion order:
    [d[k] = v] replaces the value of a key already there and appends a
    new key at the end. *)
Fixpoint dict_set (k : string) (v : Z) (d : list (string * Z))
  : list (string * Z) :=
  match d with
  | [] => [(k, v)]
  | (k', v') :: rest =>
      if String.eqb k' k then (k, v) :: rest
      else (k', v') :: dict_set k v rest
  end.

(** [max(d, key=d.get)] and [min(d, key=d.get)] keep the first key, in
    insertion order, whose value is the largest (the smallest). *)
Fixpoint max_from (best : string * Z) (rest : list (string * Z))
  : string * Z :=
  match rest with
  | [] => best
  | kv :: rest' =>
      if kv.2 >? best.2 then max_from kv rest' else max_from best rest'
  end.

Fixpoint min_from (best : string * Z) (rest : list (string * Z))
  : string * Z :=
  match rest with
  | [] => best
  | kv :: rest' =>
      if kv.2 <? best.2 then min_from kv rest' else min_from best rest'
  end.

Definition count_entry (kv : string * Z) : pyval :=
  PDict {[ "country" := PStr kv.1; "count" := PInt kv.2 ]}.

Definition statistics (countries_data : list (string * Z))
  : gmap string pyval :=
  match countries_data with
  | [] => ∅
  | kv :: rest =>
      {[ "most_holidays" := count_entry (max_from kv rest);
         "least_holidays" := count_entry (min_from kv rest) ]}
  end.

Definition holidays_summary_json : string := "holidays_summary.json".

Definition create_holiday_summary (fs : file_system)
    (countries_data : list (string * Z))
  : list output * list fs_event * list log_record * bool :=
  let countries : gmap string pyval :=
    list_to_map ((λ kv : string * Z, (kv.1, PInt kv.2)) <$> countries_data) in
  let summary : pyval :=
    PDict {[ "countries" := PDict countries;
             "statistics" := PDict (statistics countries_data) ]} in
  let data : gmap string pyval := {[ "holiday_summary" := summary ]} in
  if can_open fs holidays_summary_json then
    match Json.dump false (PDict data) with
    | Ok _ =>
        ([PrintJson summary], [WriteJson holidays_summary_json (PDict data)],
         [(INFO, SavedSummary)], true)
    | Raise e =>
        ([PrintJson summary], [WriteJson holidays_summary_json (PDict data)],
         [(ERROR, FailedToSaveSummary e)], false)
    end
  else
    ([PrintJson summary], [], [(ERROR, FailedToSaveSummary OSError)], false).

(** What a run of the script leaves behind; [finished] is [Raise e]
    when an exception ended the script. *)
Record run := {
  requests_made : nat;
  countries_summary : list (string * Z);
  printed : list output;
  logged : list log_record;
  files : list fs_event;
  finished : result ()
}.

(** The [for country in countries] loop, at the [i]-th request. *)
Fixpoint for_countries (net : nat -> http_result) (i : nat)
    (countries : list string) (summary : list (string * Z)) : run :=
  match countries with
  | [] => {| requests_made := i; countries_summary := summary;
             printed := []; logged := []; files := [];
             finished := Ok () |}
  | country :: rest =>
      let '(holidays, log1) := get_public_holidays country 2024 (net i) in
      if truthy holidays then
        match len holidays with
        | Raise e =>
            {| requests_made := S i; countries_summary := summary;
               printed := []; logged := log1; files := [];
               finished := Raise e |}
        | Ok n =>
            let summary := dict_set country n summary in
            let '(out, log2, r) := print_holiday_details holidays country in
            match r with
            | Raise e =>
                {| requests_made := S i; countries_summary := summary;
                   printed := out; logged := log1 ++ log2; files := [];
                   finished := Raise e |}
            | Ok _ =>
                let k := for_countries net (S i) rest summary in
                {| requests_made := requests_made k;
                   countries_summary := countries_summary k;
                   printed := out ++ printed k;
                   logged := log1 ++ log2 ++ logged k;
                   files := files k; finished := finished k |}
            end
        end
      else
        let summary := dict_set country 0 summary in
        let k := for_countries net (S i) rest summary in
        {| requests_made := requests_made k;
           countries_summary := countries_summary k;
           printed := PrintFailed country :: printed k;
           logged := log1 ++ logged k;
           files := files k; finished := finished k |}
  end.

(** The statements at the end of the file. *)
Definition script (net : nat -> http_result) (fs : file_system) : run :=
  let k := for_countries net 0 ["US"; "CA"; "GB"] [] in
  match finished k with
  | Raise _ => k
  | Ok _ =>
      let '(out, evs, log, _) :=
        create_holiday_summary fs (countries_summary k) in
      {| requests_made := requests_made k;
         countries_summary := countries_summary k;
         printed := printed k ++ out;
         logged := logged k ++ log;
         files := evs; finished := Ok () |}
  end.

(** Sample networks: every request is answered with one holiday; and
    the same, except that the second request times out. *)
Definition one_holiday : nat -> http_result :=
  λ _, HttpResponse 200
         (Some (PList [PDict {[ "name" := PStr "New Year's Day";
                                "date" := PStr "2024-01-01" ]}])).

Definition timeout_second : nat -> http_result :=
  λ i, match i with
       | 1%nat => HttpRaises Timeout
       | _ => one_holiday i
       end.

End Holidays.

(** ** agent/kalshi_agent.py: the collection run *)

Module KalshiRun.

Import Kalshi.

(** [n ? f] for an int [n] and a float [f]: Python compares the two
    exactly, without converting [n]; NaN compares with nothing. *)
Definition int_cmp_float (n : Z) (f : float) : option comparison :=
  match f with
  | S754_nan => None
  | S754_infinity s => Some (if s then Gt else Lt)
  | S754_zero _ => Some (n ?= 0)
  | S754_finite s m e =>
      let v := if s then Zneg m else Zpos m in
      Some (if 0 <=? e then n ?= v * 2 ^ e else n * 2 ^ (- e) ?= v)
  end.

(** [n >= v] for an int [n] and any value [v]: a number is compared,
    anything else raises TypeError. *)
Definition int_ge (n : Z) (v : pyval) : result bool :=
  match v with
  | PInt z => Ok (n >=? z)
  | PBool b => Ok (n >=? (if b then 1 else 0))
  | PFloat f =>
      Ok match int_cmp_float n f with
         | Some Gt | Some Eq => true
         | _ => false
         end
  | _ => Raise TypeError
  end.

(** [x < c] for a number [x] and a float [c]. *)
Definition num_lt_float (x : num) (c : float) : bool :=
  match x with
  | NInt n => match int_cmp_float n c with Some Lt => true | _ => false end
  | NFloat f => flt f c
  end.

(** [v * f] for any value [v] and a float [f]: a number is converted to
    float and multiplied, anything else raises TypeError (a sequence
    cannot be multiplied by a float). The conversion of an int beyond
    the binary64 range, which [float_of_int] rounds to infinity, raises
    OverflowError. *)
Definition val_mul_float (v : pyval) (f : float) : result float :=
  match v with
  | PInt z =>
      if finite (float_of_int z) then Ok (fmul (float_of_int z) f)
      else Raise OverflowError
  | PBool b => Ok (fmul (float_of_int (if b then 1 else 0)) f)
  | PFloat g => Ok (fmul g f)
  | _ => Raise TypeError
  end.

Definition of_num (x : num) : pyval :=
  match x with
  | NInt z => PInt z
  | NFloat f => PFloat f
  end.

Definition f0_7 : float := Eval vm_compute in decimal 7 10.

(** The texts that the methods below hand to [self.logger], besides
    those of the methods above. *)
Inductive message :=
| Method (m : Kalshi.message)
| StartingCollection
    (* "Starting data collection agent" *)
| CollectionFailed (e : exn)
    (* "Collection failed: {e}" *)
| Performance (quality : num) (success : float)
    (* "Performance - Quality: {quality:.2f}, Success: {success:.2f}" *)
| GeneratingFinalReport.
    (* "Generating final report" *)

Definition log_record : Type := level * message.

Definition lift (log : list Kalshi.log_record) : list log_record :=
  prod_map id Method <$> log.

Definition collection_complete (a : agent) : result bool :=
  int_ge (Z.of_nat (length (data_store a)))
         (get_default (config a) "num_markets" (PInt 5)).

Definition assess_performance (a : agent) : result (list log_record) :=
  quality ← assess_data_quality a;
  success ← get_success_rate a;
  Ok [(INFO, Performance quality success)].

(** [jitter] is the value drawn by [random.uniform(0.5, 1.5)], and
    [sleep d] tells whether [time.sleep(d)] returns or raises (it raises
    on a negative duration, on NaN and on a duration too large for the
    clock). Returns the durations slept. *)
Definition respectful_delay (sleep : float -> result ()) (jitter : float)
    (a : agent) : list float * result () :=
  let base_delay := get_default (config a) "base_delay" (PFloat f1_0) in
  match val_mul_float base_delay (delay_multiplier a) with
  | Raise e => ([], Raise e)
  | Ok d =>
      match sleep (fmul d jitter) with
      | Raise e => ([], Raise e)
      | Ok _ => ([fmul d jitter], Ok ())
      end
  end.

Definition generate_recommendations (a : agent) : result (list string) :=
  success_rate ← get_success_rate a;
  let recs1 :=
    if flt success_rate f0_8 then ["Increase delay between requests"]
    else [] in
  quality ← assess_data_quality a;
  let recs2 :=
    if num_lt_float quality f0_7 then recs1 ++ ["Add validation steps"]
    else recs1 in
  Ok match recs2 with
     | [] => ["Collection performed well"]
     | _ => recs2
     end.

(** The three dicts that [generate_final_report] builds. [now] is the
    clock reading, in microseconds like [start_time], from which the
    duration is taken ([timedelta.total_seconds] divides the microseconds
    by 10^6); [now_iso] is the text of the later
    [datetime.now().isoformat()]. *)
Definition final_reports (now : Z) (now_iso : string) (a : agent)
  : result (pyval * pyval * pyval) :=
  duration ← int_truediv (now - start_time a) 1000000;
  success_rate ← get_success_rate a;
  quality_score ← assess_data_quality a;
  let total_records := PInt (Z.of_nat (length (data_store a))) in
  let summary : gmap string pyval :=
    list_to_map
      [("total_records", total_records);
       ("success_rate", PFloat success_rate);
       ("quality_score", of_num quality_score);
       ("duration_seconds", PFloat duration);
       ("total_requests", PInt (total_requests a));
       ("successful_requests", PInt (successful_requests a));
       ("failed_requests", PInt (failed_requests a))] in
  completeness ← check_completeness a;
  accuracy ← check_accuracy a;
  consistency ← check_consistency a;
  recommendations ← generate_recommendations a;
  let quality_report : gmap string pyval :=
    list_to_map
      [("completeness", of_num completeness);
       ("accuracy", of_num accuracy);
       ("consistency", of_num consistency);
       ("timeliness", PFloat f1_0);
       ("recommendations", PList (PStr <$> recommendations))] in
  let variables : gmap string pyval :=
    list_to_map
      [("ticker", PStr "Market identifier");
       ("title", PStr "Market description");
       ("category", PStr "Market category");
       ("status", PStr "Market status");
       ("last_price", PStr "Last traded price");
       ("volume", PStr "Trading volume");
       ("collection_timestamp", PStr "Collection time")] in
  let metadata : gmap string pyval :=
    list_to_map
      [("collection_date", PStr now_iso);
       ("agent_version", PStr "1.0");
       ("data_source", PStr "Kalshi Markets API");
       ("total_records", total_records);
       ("quality_metrics", PDict quality_report);
       ("variables", PDict variables)] in
  Ok (PDict summary, PDict quality_report, PDict metadata).

Definition generate_final_report (fs : file_system) (now : Z)
    (now_iso : string) (a : agent)
  : list fs_event * list log_record * result () :=
  match final_reports now now_iso a with
  | Raise e => ([], [(INFO, GeneratingFinalReport)], Raise e)
  | Ok (summary, quality_report, metadata) =>
      let '(evs, log, r) :=
        save_reports fs a summary quality_report metadata in
      (evs, (INFO, GeneratingFinalReport) :: lift log, r)
  end.

(** What one iteration of the loop takes from outside: the outcome of
    its request, the text of [datetime.now().isoformat()] when the
    market is processed, and the jitter drawn for the delay. *)
Record tick := {
  response : http_result;
  stamp : string;
  jitter : float
}.

(** The state of the [while] loop of [run_collection]: [ended] is [None]
    while the loop is still running, [Some (Ok ())] once
    [collection_complete] has returned True, and [Some (Raise e)] once an
    exception has left the loop. *)
Record loop := {
  agent_now : agent;
  logged : list log_record;
  slept : list float;
  iterations : nat;
  ended : option (result ())
}.

(** The [while] loop, run for at most [fuel] tests of its condition.
    The iteration numbered [i] takes [ticks i]. *)
Fixpoint collection_loop (sleep : float -> result ()) (ticks : nat -> tick)
    (fuel i : nat) (a : agent) : loop :=
  match fuel with
  | O => {| agent_now := a; logged := []; slept := [];
            iterations := i; ended := None |}
  | S fuel' =>
      match collection_complete a with
      | Raise e => {| agent_now := a; logged := []; slept := [];
                      iterations := i; ended := Some (Raise e) |}
      | Ok true => {| agent_now := a; logged := []; slept := [];
                      iterations := i; ended := Some (Ok ()) |}
      | Ok false =>
          let t := ticks i in
          let '(a1, log1, r1) :=
            collect_and_store (response t) (stamp t) a in
          match r1 with
          | Raise e => {| agent_now := a1; logged := lift log1;
                          slept := []; iterations := S i;
                          ended := Some (Raise e) |}
          | Ok _ =>
              match assess_performance a1 with
              | Raise e => {| agent_now := a1; logged := lift log1;
                              slept := []; iterations := S i;
                              ended := Some (Raise e) |}
              | Ok log2 =>
                  match respectful_delay sleep (jitter t) a1 with
                  | (_, Raise e) =>
                      {| agent_now := a1; logged := lift log1 ++ log2;
                         slept := []; iterations := S i;
                         ended := Some (Raise e) |}
                  | (d, Ok _) =>
                      let k := collection_loop sleep ticks fuel' (S i) a1 in
                      {| agent_now := agent_now k;
                         logged := lift log1 ++ log2 ++ logged k;
                         slept := d ++ slept k;
                         iterations := iterations k;
                         ended := ended k |}
                  end
              end
          end
      end
  end.

(** What a call of [run_collection] leaves behind once it has returned
    or raised. *)
Record run := {
  final_agent : agent;
  run_logged : list log_record;
  run_slept : list float;
  run_files : list fs_event;
  returned : result ()
}.

(** [run_collection]: the loop inside [try], the [except Exception]
    clause that logs what left the loop, and the final report in
    [finally]. [None] when the loop is still running after [fuel] tests
    of its condition. *)
Definition run_collection (sleep : float -> result ())
    (ticks : nat -> tick) (fs : file_system) (now : Z) (now_iso : string)
    (fuel : nat) (a : agent) : option run :=
  let k := collection_loop sleep ticks fuel 0 a in
  match ended k with
  | None => None
  | Some r =>
      let failed :=
        match r with
        | Ok _ => []
        | Raise e => [(ERROR, CollectionFailed e)]
        end in
      let '(evs, log, r') :=
        generate_final_report fs now now_iso (agent_now k) in
      Some {| final_agent := agent_now k;
              run_logged :=
                (INFO, StartingCollection) :: logged k ++ failed ++ log;
              run_slept := slept k;
              run_files := evs;
              returned := r' |}
  end.

(** A response that yields a market which [process_and_store] stores: a
    dict whose ticker and title are true and not 'N/A', and whose
    category, when it has one, is so too. *)
Definition storable (d : gmap string pyval) : bool :=
  filled (get d "ticker") && filled (get d "title")
  && match d !! "category" with
     | Some v => filled v
     | None => true
     end.

Definition good_response (r : http_result) : Prop :=
  ∃ (body d : gmap string pyval) (rest : list pyval),
    r = HttpResponse 200 (Some (PDict body)) ∧
    body !! "markets" = Some (PList (PDict d :: rest)) ∧
    storable d = true.

(** Sample runs: an API that always answers with the rain market, and
    one that always times out; a [time.sleep] that always returns. *)
Definition rain_response : http_result :=
  HttpResponse 200
    (Some (PDict {[ "markets" := PList [PDict rain_market] ]})).

Definition rain_ticks : nat -> tick :=
  λ _, {| response := rain_response; stamp := "2024-05-01T12:00:00";
          jitter := f1_0 |}.

Definition timeout_ticks : nat -> tick :=
  λ _, {| response := HttpRaises Timeout; stamp := "2024-05-01T12:00:00";
          jitter := f1_0 |}.

Definition sleep_returns : float -> result () := λ _, Ok ().

(** A [time.sleep] that returns for a duration from 0 to 3600 seconds,
    and raises for any other. *)
Definition sleep_within_the_hour : float -> result () :=
  λ d, if fle (S754_zero false) d && fle d (float_of_int 3600)
       then Ok () else Raise OtherException.

(** A base delay that [respectful_delay] can multiply by the delay
    multiplier: a float, a bool, or an int within the binary64 range. *)
Definition delay_number (v : pyval) : bool :=
  match v with
  | PFloat _ | PBool _ => true
  | PInt z => finite (float_of_int z)
  | _ => false
  end.

(** A configuration file that gives num_markets as a string. *)
Definition text_target_config : gmap string pyval :=
  {[ "num_markets" := PStr "5" ]}.

(** A response with status 200 whose first market is a string. *)
Definition text_response : http_result :=
  HttpResponse 200 (Some (PDict {[ "markets" := PList [PStr "closed"] ]})).

(** The request counters are consistent: no outcome counter exceeds
    the number of requests, and every request has an outcome. *)
Definition counted (a : agent) : Prop :=
  0 <= successful_requests a <= total_requests a ∧
  0 <= failed_requests a <= total_requests a ∧
  total_requests a <= successful_requests a + failed_requests a.

(** A record that [process_and_store] has built and accepted. *)
Definition stored_record (record : gmap string pyval) : Prop :=
  ∃ data now,
    process_data data now = Ok record ∧ validate_data record = true.

(** The keys of a record built by [process_data]. *)
Definition record_keys : gset string :=
  list_to_set ["ticker"; "title"; "category"; "status"; "last_price";
               "volume"; "collection_timestamp"].

End KalshiRun.

(** ** Kinds of responses met by the two scripts *)

Module Cases.

(** A response on which the loop body of [get_cat_facts] does not
    raise: its status is not 200, or its body is a JSON object. *)
Definition quiet (r : http_result) : bool :=
  match r with
  | HttpRaises _ => false
  | HttpResponse status body =>
      negb (status =? 200)
      || match body with Some (PDict _) => true | _ => false end
  end.

(** The fact that the loop body of [get_cat_facts] keeps from a
    response, if any: the true value under "fact" of a 200 response. *)
Definition kept (r : http_result) : option pyval :=
  match r with
  | HttpResponse status (Some (PDict d)) =>
      if (status =? 200) && truthy (get d "fact")
      then Some (get d "fact") else None
  | _ => None
  end.






End Cases.

(** ** Equality of values *)

Module Equal.

Import KalshiRun.

(** The number that a value is in a comparison: a bool counts as the
    int 0 or 1. *)
Definition as_number (v : pyval) : option num :=
  match v with
  | PBool b => Some (NInt (if b then 1 else 0))
  | PInt z => Some (NInt z)
  | PFloat f => Some (NFloat f)
  | _ => None
  end.

(** [x == y] on numbers: an int and a float are compared exactly, and
    NaN equals nothing. *)
Definition num_eqb (x y : num) : bool :=
  match x, y with
  | NInt a, NInt b => a =? b
  | NInt a, NFloat f | NFloat f, NInt a =>
      match int_cmp_float a f with Some Eq => true | _ => false end
  | NFloat f, NFloat g => SFeqb f g
  end.

(** [v == w] on two values that are not the same object: numbers by
    value, strings by their characters, lists element by element, dicts
    key by key. *)
Fixpoint py_eq (v w : pyval) {struct v} : bool :=
  match v, w with
  | PNone, PNone => true
  | PStr s, PStr t => String.eqb s t
  | PList l, PList l' =>
      (fix all2 (l l' : list pyval) : bool :=
         match l, l' with
         | [], [] => true
         | x :: r, y :: r' => py_eq x y && all2 r r'
         | _, _ => false
         end) l l'
  | PDict d, PDict d' =>
      bool_decide (dom d = dom d')
      && map_fold (λ k x found,
                     match d' !! k with
                     | Some y => py_eq x y
                     | None => false
                     end && found) true d
  | _, _ =>
      match as_number v, as_number w with
      | Some x, Some y => num_eqb x y
      | _, _ => false
      end
  end.

(** Whether no float of the value is NaN. *)
Fixpoint nan_free (v : pyval) : bool :=
  match v with
  | PFloat S754_nan => false
  | PList l => forallb nan_free l
  | PDict d => map_fold (λ _ x found, nan_free x && found) true d
  | _ => true
  end.

End Equal.

(** * Properties *)

Import Kalshi.

(** ** Floats and results *)

(** Comparison of a float [x] with a positive finite literal: the cases
    where [x] is a zero, an infinity, NaN or negative compute. *)
Ltac positive_finite x :=
  let s := fresh "s" in
  destruct x as [s|s| |s ? ?]; cbn [SFcompare];
  [ destruct s; first [reflexivity | discriminate]
  | destruct s; first [reflexivity | discriminate]
  | first [reflexivity | discriminate]
  | destruct s; [ first [reflexivity | discriminate] | ] ].

(** Two bounds on a mantissa that contradict each other. *)
Ltac absurd_order H1 H2 :=
  let K := fresh in
  pose proof (Pos.lt_trans _ _ _ H1 H2) as K;
  vm_compute in K; discriminate K.

Section FloatFacts.

(** A float below 0.8 is not above 0.9. *)
Lemma lt_0_8_not_gt_0_9 (x : float) :
  flt x f0_8 = true -> flt f0_9 x = false.
Proof.
  unfold flt, SFltb, f0_8, f0_9.
  positive_finite x.
  rewrite (Z.compare_antisym e (-53)).
  destruct (Z.compare_spec e (-53)) as [->|Hlt|Hgt]; cbn [CompOpp];
    [ | reflexivity | discriminate ].
  rewrite !Pos.compare_cont_spec.
  destruct (Pos.compare_spec m 7205759403792794) as [|H8|];
    cbn [Pos.switch_Eq]; try discriminate.
  intros _.
  destruct (Pos.compare_spec 8106479329266893 m) as [|H9|];
    cbn [Pos.switch_Eq]; try reflexivity.
  absurd_order H9 H8.
Qed.

(** A float below 0.5 is below 0.8. *)
Lemma lt_0_5_lt_0_8 (x : float) :
  flt x f0_5 = true -> flt x f0_8 = true.
Proof.
  unfold flt, SFltb, f0_5, f0_8.
  positive_finite x.
  destruct (Z.compare_spec e (-53)) as [->|Hlt|Hgt];
    [ | reflexivity | discriminate ].
  rewrite !Pos.compare_cont_spec.
  destruct (Pos.compare_spec m 4503599627370496) as [|H5|];
    cbn [Pos.switch_Eq]; try discriminate.
  intros _.
  destruct (Pos.compare_spec m 7205759403792794) as [->|H8|H8];
    cbn [Pos.switch_Eq]; try reflexivity.
  - vm_compute in H5. discriminate H5.
  - absurd_order H8 H5.
Qed.

Lemma lt_0_5_not_gt_0_9 (x : float) :
  flt x f0_5 = true -> flt f0_9 x = false.
Proof. intros H. apply lt_0_8_not_gt_0_9, lt_0_5_lt_0_8, H. Qed.

Lemma float_of_int_2 : float_of_int 2 = f2_0.
Proof. reflexivity. Qed.

Lemma int_truediv_nonzero (a b : Z) :
  b <> 0 -> int_truediv a b = Ok (fdiv (int_sf a) (int_sf b)).
Proof.
  intros Hb. unfold int_truediv.
  destruct (Z.eqb_spec b 0); [contradiction | reflexivity].
Qed.

End FloatFacts.

(** ** The success rate and the delay strategy *)

Section Strategy.

Implicit Types a : agent.

Lemma get_success_rate_pos a :
  0 < total_requests a -> get_success_rate a = Ok (rate_of a).
Proof.
  intros H. unfold get_success_rate.
  destruct (Z.gtb_spec (total_requests a) 0); [|lia].
  apply int_truediv_nonzero. lia.
Qed.

Lemma get_success_rate_nonpos a :
  total_requests a <= 0 -> get_success_rate a = Ok f1_0.
Proof.
  intros H. unfold get_success_rate.
  destruct (Z.gtb_spec (total_requests a) 0); [lia | reflexivity].
Qed.

(** [get_success_rate] never raises. *)
Lemma get_success_rate_total a : ∃ rate, get_success_rate a = Ok rate.
Proof.
  destruct (Z_lt_le_dec 0 (total_requests a)).
  - eexists. apply get_success_rate_pos. assumption.
  - eexists. apply get_success_rate_nonpos. assumption.
Qed.

(** What [adjust_strategy] does, by the success rate it reads. *)
Lemma adjust_strategy_cases a rate :
  get_success_rate a = Ok rate ->
  adjust_strategy a =
    if flt rate f0_5 then
      Ok (set_delay_multiplier a (fmul (delay_multiplier a) f2_0),
          [(WARNING, LowSuccessRate (fmul (delay_multiplier a) f2_0))])
    else if flt f0_9 rate then
      Ok (set_delay_multiplier a (fmul (delay_multiplier a) f0_8),
          [(INFO, HighSuccessRate (fmul (delay_multiplier a) f0_8))])
    else Ok (a, []).
Proof.
  intros Hr. unfold adjust_strategy. rewrite Hr. cbn [mbind result_bind].
  rewrite float_of_int_2. reflexivity.
Qed.

(** C1. In every state of the agent in which the success rate is a
    float [rate] (the division of the two counters is beyond binary64
    only from 2^1024 successes per request on),
    [adjust_strategy] returns without raising and leaves an agent whose
    delay multiplier is the old one multiplied by 2 when [rate < 0.5],
    the old one multiplied by 0.8 when [rate > 0.9], and the old one
    otherwise (NaN and both infinities included: the product is the
    binary64 one). The configuration, the data store, the start time and
    the three request counters of the agent are those it had. *)
Theorem adjust_strategy_spec a rate :
  get_success_rate a = Ok rate ->
  finite rate = true ->
  ∃ a' log,
    adjust_strategy a = Ok (a', log) ∧
    (flt rate f0_5 = true ->
       delay_multiplier a' = fmul (delay_multiplier a) f2_0) ∧
    (flt f0_9 rate = true ->
       delay_multiplier a' = fmul (delay_multiplier a) f0_8) ∧
    (flt rate f0_5 = false -> flt f0_9 rate = false ->
       delay_multiplier a' = delay_multiplier a) ∧
    config a' = config a ∧
    data_store a' = data_store a ∧
    start_time a' = start_time a ∧
    total_requests a' = total_requests a ∧
    successful_requests a' = successful_requests a ∧
    failed_requests a' = failed_requests a.
Proof.
  intros Hr _.
  pose proof (adjust_strategy_cases a rate Hr) as Ha.
  pose proof (lt_0_5_not_gt_0_9 rate) as Hx.
  destruct (flt rate f0_5) eqn:H5.
  - rewrite (Hx eq_refl).
    exists (set_delay_multiplier a (fmul (delay_multiplier a) f2_0)).
    eexists. split; [exact Ha|].
    split; [intros _; reflexivity|]. split; [discriminate|].
    split; [discriminate|]. cbn. tauto.
  - destruct (flt f0_9 rate) eqn:H9.
    + exists (set_delay_multiplier a (fmul (delay_multiplier a) f0_8)).
      eexists. split; [exact Ha|].
      split; [discriminate|]. split; [intros _; reflexivity|].
      split; [discriminate|]. cbn. tauto.
    + exists a. eexists. split; [exact Ha|].
      split; [discriminate|]. split; [discriminate|].
      split; [intros _ _; reflexivity|]. tauto.
Qed.

(** With one success in four requests the rate is 0.25 and the delay
    multiplier goes from 1.0 to 2.0; with four successes in four
    requests the rate is 1.0 and it goes from 2.0 to 1.6. In both cases
    the counters stay. *)
Lemma adjust_strategy_spec_witness :
  (∃ a' log,
     adjust_strategy mostly_failed = Ok (a', log) ∧
     delay_multiplier a' = f2_0 ∧
     total_requests a' = 4 ∧ successful_requests a' = 1 ∧
     failed_requests a' = 3)
  ∧ (∃ a' log,
       adjust_strategy (mkAgent _default_config [] 0 4 4 0 f2_0)
       = Ok (a', log) ∧
       delay_multiplier a' = decimal 16 10 ∧
       total_requests a' = 4 ∧ successful_requests a' = 4 ∧
       failed_requests a' = 0).
Proof.
  split.
  - destruct (adjust_strategy_spec mostly_failed (decimal 1 4)
                eq_refl eq_refl)
      as (a' & log & Ha & H5 & _ & _ & _ & _ & _ & Ht & Hs & Hf).
    exists a', log. split; [exact Ha|].
    split; [exact (H5 eq_refl)|]. split; [exact Ht|].
    split; [exact Hs | exact Hf].
  - destruct (adjust_strategy_spec (mkAgent _default_config [] 0 4 4 0 f2_0)
                f1_0 eq_refl eq_refl)
      as (a' & log & Ha & _ & H9 & _ & _ & _ & _ & Ht & Hs & Hf).
    exists a', log. split; [exact Ha|].
    split; [exact (H9 eq_refl)|]. split; [exact Ht|].
    split; [exact Hs | exact Hf].
Defined.

End Strategy.

(** ** Success rate *)

Section SuccessRate.

Implicit Types a : agent.

(** C3, as stated, fails: with no request counted, [get_success_rate]
    returns 1.0, while dividing the two counters raises
    ZeroDivisionError. *)
Lemma get_success_rate_no_requests :
  total_requests (init _default_config 0) = 0 ∧
  get_success_rate (init _default_config 0) = Ok f1_0 ∧
  int_truediv (successful_requests (init _default_config 0))
              (total_requests (init _default_config 0))
    = Raise ZeroDivisionError.
Proof. repeat split. Qed.

(** C3, amended. When [total_requests] is positive, [get_success_rate]
    returns [successful_requests / total_requests], and that division
    does not raise; when it is not positive (no request counted yet),
    [get_success_rate] returns 1.0. *)
Theorem get_success_rate_spec a :
  (0 < total_requests a ->
     get_success_rate a
       = int_truediv (successful_requests a) (total_requests a)
     ∧ get_success_rate a = Ok (rate_of a))
  ∧ (total_requests a <= 0 -> get_success_rate a = Ok f1_0).
Proof.
  split.
  - intros H. rewrite (get_success_rate_pos a H). split; [|reflexivity].
    symmetry. apply int_truediv_nonzero. lia.
  - apply get_success_rate_nonpos.
Qed.

(** One success out of two requests gives 0.5; no request gives 1.0. *)
Lemma get_success_rate_spec_witness :
  get_success_rate half_failed = Ok f0_5
  ∧ get_success_rate (init _default_config 0) = Ok f1_0.
Proof.
  split.
  - apply (proj1 (get_success_rate_spec half_failed)). reflexivity.
  - apply (proj2 (get_success_rate_spec (init _default_config 0))).
    discriminate.
Defined.

End SuccessRate.

(** ** Data quality *)

Section Quality.

Implicit Types a : agent.

Lemma length_pos_nonempty {A} (l : list A) :
  l <> [] -> Z.of_nat (length l) <> 0.
Proof. destruct l; [congruence | simpl; lia]. Qed.

(** The three checks divide only by counts that are not zero. *)
Lemma check_completeness_total a : ∃ c, check_completeness a = Ok c.
Proof.
  unfold check_completeness. destruct (data_store a) as [|item rest].
  - eexists; reflexivity.
  - set (total_fields := sum_int _). set (filled_fields := sum_int _).
    destruct (Z.gtb_spec total_fields 0) as [Hpos|Hle].
    + rewrite int_truediv_nonzero by lia. eexists; reflexivity.
    + eexists; reflexivity.
Qed.

Lemma check_accuracy_total a : ∃ c, check_accuracy a = Ok c.
Proof.
  unfold check_accuracy. destruct (data_store a) as [|item rest] eqn:E.
  - eexists; reflexivity.
  - rewrite int_truediv_nonzero by (apply length_pos_nonempty; congruence).
    eexists; reflexivity.
Qed.

Lemma check_consistency_total a : ∃ c, check_consistency a = Ok c.
Proof.
  unfold check_consistency.
  destruct (data_store a) as [|first [|second rest]] eqn:E.
  - eexists; reflexivity.
  - eexists; reflexivity.
  - rewrite int_truediv_nonzero by (apply length_pos_nonempty; congruence).
    eexists; reflexivity.
Qed.

Lemma num_truediv_4 (x : num) : ∃ q, num_truediv x 4 = Ok q.
Proof. destruct x; eexists; reflexivity. Qed.

(** On a store that is not empty the accuracy and the consistency are
    floats, and the completeness is a float or, when no record has a
    field, the int 0. *)
Lemma check_completeness_shape a :
  ∃ c, check_completeness a = Ok c ∧ (c = NInt 0 ∨ ∃ f, c = NFloat f).
Proof.
  unfold check_completeness. destruct (data_store a) as [|item rest].
  - eexists; split; [reflexivity | left; reflexivity].
  - set (total_fields := sum_int _). set (filled_fields := sum_int _).
    destruct (Z.gtb_spec total_fields 0) as [Hpos|Hle].
    + rewrite int_truediv_nonzero by lia.
      eexists; split; [reflexivity | right; eexists; reflexivity].
    + eexists; split; [reflexivity | left; reflexivity].
Qed.

Lemma check_accuracy_float a :
  data_store a <> [] -> ∃ f, check_accuracy a = Ok (NFloat f).
Proof.
  intros Hne. unfold check_accuracy.
  destruct (data_store a) as [|item rest] eqn:E; [congruence|].
  rewrite int_truediv_nonzero by (apply length_pos_nonempty; congruence).
  eexists; reflexivity.
Qed.

Lemma check_consistency_float a : ∃ f, check_consistency a = Ok (NFloat f).
Proof.
  unfold check_consistency.
  destruct (data_store a) as [|first [|second rest]] eqn:E.
  - eexists; reflexivity.
  - eexists; reflexivity.
  - rewrite int_truediv_nonzero by (apply length_pos_nonempty; congruence).
    eexists; reflexivity.
Qed.

(** The end of [sum]: the compensation is added when it is a finite
    number other than zero. *)
Lemma sum_floats_end (f c : float) :
  (if nonzero c && finite c then fadd f c else f)
  = match c with S754_finite _ _ _ => fadd f c | _ => f end.
Proof. destruct c as [[|]|[|]| |s m e]; reflexivity. Qed.

(** C4. For every agent whose data store is not empty, the accuracy and
    the consistency are floats, the completeness is a float (or the int
    0 when no record has a field), and [assess_data_quality] returns
    their sum with the timeliness 1.0, divided by 4.0. The sum is the
    one that [sum] makes of the four values in their order: starting
    from the int 0 they are added one after the other, each addition
    rounded to binary64 ([s1] to [s4]); what each rounding dropped
    ([rest]) is added up beside, and the total of it is added to [s4]
    at the end when it is a finite number other than zero. *)
Theorem assess_data_quality_mean a :
  data_store a <> [] ->
  ∃ (completeness : num) (accuracy consistency total : float),
    check_completeness a = Ok completeness ∧
    check_accuracy a = Ok (NFloat accuracy) ∧
    check_consistency a = Ok (NFloat consistency) ∧
    (let rest (f x : float) :=
       if fle (fabs x) (fabs f) then fadd (fsub f (fadd f x)) x
       else fadd (fsub x (fadd f x)) f in
     let add_rest (s lost : float) :=
       match lost with
       | S754_finite _ _ _ => fadd s lost
       | _ => s
       end in
     match completeness with
     | NFloat c =>
         let s1 := fadd (float_of_int 0) c in
         let s2 := fadd s1 accuracy in
         let s3 := fadd s2 consistency in
         let s4 := fadd s3 f1_0 in
         total
         = add_rest s4
             (fadd (fadd (fadd (S754_zero false) (rest s1 accuracy))
                         (rest s2 consistency))
                   (rest s3 f1_0))
     | NInt z =>
         let s2 := fadd (float_of_int 0) accuracy in
         let s3 := fadd s2 consistency in
         let s4 := fadd s3 f1_0 in
         z = 0 ∧
         total
         = add_rest s4
             (fadd (fadd (S754_zero false) (rest s2 consistency))
                   (rest s3 f1_0))
     end) ∧
    assess_data_quality a = Ok (NFloat (fdiv total (float_of_int 4))).
Proof.
  intros Hne.
  destruct (check_completeness_shape a) as (c & Hc & Hshape).
  destruct (check_accuracy_float a Hne) as [acc Hacc].
  destruct (check_consistency_float a) as [k Hk].
  assert (Hq : assess_data_quality a
               = q ← num_truediv (Py.sum [c; NFloat acc; NFloat k;
                                           NFloat f1_0]) 4;
                 Ok (NFloat q)).
  { unfold assess_data_quality.
    destruct (data_store a) as [|item rest]; [congruence|].
    rewrite Hc, Hacc, Hk. reflexivity. }
  destruct Hshape as [-> | [f ->]].
  - eexists (NInt 0), acc, k, _.
    split; [exact Hc|]. split; [exact Hacc|]. split; [exact Hk|].
    split; [split; reflexivity|]. rewrite Hq.
    cbn [Py.sum sum_ints sum_floats]. rewrite sum_floats_end. reflexivity.
  - eexists (NFloat f), acc, k, _.
    split; [exact Hc|]. split; [exact Hacc|]. split; [exact Hk|].
    split; [reflexivity|]. rewrite Hq.
    cbn [Py.sum sum_ints sum_floats]. rewrite sum_floats_end. reflexivity.
Qed.

(** A store holding one market without price or volume: five of its
    seven fields are filled, the other three scores are 1.0, and the
    quality is the binary64 number nearest to (5/7 + 1 + 1 + 1) / 4 =
    13/14, which prints as 0.9285714285714286. *)
Lemma assess_data_quality_mean_witness :
  check_completeness one_market = Ok (NFloat (decimal 5 7)) ∧
  check_accuracy one_market = Ok (NFloat f1_0) ∧
  check_consistency one_market = Ok (NFloat f1_0) ∧
  assess_data_quality one_market = Ok (NFloat (decimal 13 14)) ∧
  decimal 13 14 = S754_finite false 8363827879402350 (-53).
Proof.
  destruct (assess_data_quality_mean one_market)
    as (c & acc & k & total & Hc & Hacc & Hk & Htotal & Hq);
    [discriminate|].
  vm_compute in Hc. injection Hc as <-.
  vm_compute in Hacc. injection Hacc as <-.
  vm_compute in Hk. injection Hk as <-.
  vm_compute in Htotal. rewrite Htotal in Hq. rewrite Hq.
  repeat split; vm_compute; reflexivity.
Defined.

End Quality.

(** ** Processing and validation *)

Section Records.

Implicit Types (a : agent) (d : gmap string pyval).

Lemma eq_str_spec (v : pyval) (s : string) :
  eq_str v s = true <-> v = PStr s.
Proof.
  destruct v; simpl; try (split; [discriminate | congruence]).
  rewrite String.eqb_eq. split; congruence.
Qed.

(** The test that [validate_data] makes on one field fails exactly when
    the field is absent, or its value is falsy or is ['N/A']. *)
Lemma field_test_false d (field : string) :
  negb (negb (truthy (get d field)) || eq_str (get d field) "N/A") = false
  <-> d !! field = None
      ∨ ∃ v, d !! field = Some v ∧ (truthy v = false ∨ v = PStr "N/A").
Proof.
  unfold get. destruct (d !! field) as [v|]; cbn [default].
  - rewrite negb_false_iff, orb_true_iff, negb_true_iff, eq_str_spec.
    split.
    + intros H. right. exists v. split; [reflexivity | exact H].
    + intros [H | (w & Hw & H)]; [discriminate|].
      injection Hw as <-. exact H.
  - split; [intros _; left; reflexivity | reflexivity].
Qed.

Lemma forallb_false {A} (f : A -> bool) (l : list A) :
  forallb f l = false <-> ∃ x, x ∈ l ∧ f x = false.
Proof.
  induction l as [|y l IH]; cbn [forallb].
  - split; [discriminate | intros (x & Hx & _); inversion Hx].
  - rewrite andb_false_iff, IH. split.
    + intros [Hy | (x & Hx & Hf)].
      * exists y. split; [left | exact Hy].
      * exists x. split; [right; exact Hx | exact Hf].
    + intros (x & Hx & Hf). inversion Hx; subst.
      * left. exact Hf.
      * right. exists x. split; assumption.
Qed.

Lemma validate_data_false d :
  validate_data d = false <->
  ∃ field, field ∈ required_fields ∧
    (d !! field = None
     ∨ ∃ v, d !! field = Some v ∧ (truthy v = false ∨ v = PStr "N/A")).
Proof.
  unfold validate_data. rewrite forallb_false.
  split; intros (field & Hin & H); exists field; (split; [exact Hin|]);
    apply field_test_false; exact H.
Qed.

(** C5. [validate_data] returns False exactly when one of ticker, title
    and category is missing from the record, has a falsy value, or has
    the value ['N/A'] (so it returns True in every other case); and
    [process_and_store] leaves the agent, its data store included, as it
    was when the processed record is rejected, while it appends an
    accepted record at the end of the data store. *)
Theorem validate_data_spec :
  (∀ d,
     validate_data d = false <->
     ∃ field, field ∈ required_fields ∧
       (d !! field = None
        ∨ ∃ v, d !! field = Some v
               ∧ (truthy v = false ∨ v = PStr "N/A")))
  ∧ (∀ data now a processed,
       process_data data now = Ok processed ->
       validate_data processed = false ->
       process_and_store data now a = Ok (a, []))
  ∧ (∀ data now a processed,
       process_data data now = Ok processed ->
       validate_data processed = true ->
       ∃ log, process_and_store data now a
              = Ok (set_data_store a (data_store a ++ [processed]), log)).
Proof.
  split; [exact validate_data_false|]. split.
  - intros data now a processed Hp Hv. unfold process_and_store.
    rewrite Hp. cbn [mbind result_bind]. rewrite Hv. reflexivity.
  - intros data now a processed Hp Hv. unfold process_and_store.
    rewrite Hp. cbn [mbind result_bind]. rewrite Hv. eexists. reflexivity.
Qed.

(** A market without a category passes (the category defaults to
    'Unknown'); a response without a title is rejected, since its title
    defaults to 'N/A', and the store stays empty. *)
Lemma validate_data_spec_witness :
  process_and_store (PDict {[ "ticker" := PStr "KXRAIN" ]})
      "2024-05-01T12:00:00" (init _default_config 0)
    = Ok (init _default_config 0, [])
  ∧ ∃ log,
      process_and_store (PDict rain_market) "2024-05-01T12:00:00"
          (init _default_config 0)
      = Ok (set_data_store (init _default_config 0) ([] ++ [rain_record]),
            log).
Proof.
  split.
  - eapply (proj1 (proj2 validate_data_spec)); reflexivity.
  - eapply (proj2 (proj2 validate_data_spec)); reflexivity.
Defined.

(** C6. For every dict [d] returned by the API, [process_data] returns
    a record in which each of ticker, title, category, status,
    last_price and volume holds the value [d] has for it, or, when [d]
    has none, its default: 'N/A' for ticker and title, 'Unknown' for
    category and status, 0 for last_price and volume. The record holds
    these six fields and the collection timestamp, nothing else. *)
Theorem process_data_defaults d (now : string) :
  ∃ r, process_data (PDict d) now = Ok r ∧
    r !! "ticker" = Some (default (PStr "N/A") (d !! "ticker")) ∧
    r !! "title" = Some (default (PStr "N/A") (d !! "title")) ∧
    r !! "category" = Some (default (PStr "Unknown") (d !! "category")) ∧
    r !! "status" = Some (default (PStr "Unknown") (d !! "status")) ∧
    r !! "last_price" = Some (default (PInt 0) (d !! "last_price")) ∧
    r !! "volume" = Some (default (PInt 0) (d !! "volume")) ∧
    r !! "collection_timestamp" = Some (PStr now) ∧
    size r = 7%nat.
Proof.
  eexists. split; [reflexivity|].
  repeat split; vm_compute; reflexivity.
Qed.

End Records.

(** ** The delay multiplier in the collection loop *)

Section Delay.

Implicit Types (a : agent) (r : http_result).

Lemma make_api_request_delay r a :
  delay_multiplier (make_api_request r a).1.1 = delay_multiplier a.
Proof.
  unfold make_api_request. destruct r as [e|status body]; [reflexivity|].
  destruct (status =? 200); [|reflexivity].
  destruct (_ ≫= _); reflexivity.
Qed.

Lemma process_and_store_delay data (now : string) a a' log :
  process_and_store data now a = Ok (a', log) ->
  delay_multiplier a' = delay_multiplier a.
Proof.
  unfold process_and_store. destruct (process_data data now) as [p|e];
    cbn [mbind result_bind]; [|discriminate].
  destruct (validate_data p); intros [= <- _]; reflexivity.
Qed.

(** [collect_batch] either leaves the strategy alone or doubles the
    delay, and then makes the request. *)
Lemma collect_batch_cases r a rate :
  get_success_rate a = Ok rate ->
  collect_batch r a =
    if flt rate f0_5 then
      let a1 := set_delay_multiplier a (fmul (delay_multiplier a) f2_0) in
      Ok ((make_api_request r a1).1.1,
          [(WARNING, LowSuccessRate (fmul (delay_multiplier a) f2_0))]
            ++ (make_api_request r a1).1.2,
          (make_api_request r a1).2)
    else
      Ok ((make_api_request r a).1.1, [] ++ (make_api_request r a).1.2,
          (make_api_request r a).2).
Proof.
  intros Hr. unfold collect_batch. rewrite Hr. cbn [mbind result_bind].
  destruct (flt rate f0_8) eqn:H8.
  - rewrite (adjust_strategy_cases a rate Hr).
    rewrite (lt_0_8_not_gt_0_9 rate H8).
    destruct (flt rate f0_5); cbn [mbind result_bind];
      destruct (make_api_request r _) as [[a2 log2] data]; reflexivity.
  - destruct (flt rate f0_5) eqn:H5.
    + rewrite (lt_0_5_lt_0_8 rate H5) in H8. discriminate.
    + cbn [mbind result_bind].
      destruct (make_api_request r a) as [[a2 log2] data]; reflexivity.
Qed.

Lemma all_doubles_ok : forallb doubles_ok delay_exponents = true.
Proof. vm_compute. reflexivity. Qed.

Lemma doubles_ok_in_range (e : Z) :
  -52 <= e <= 971 -> doubles_ok e = true.
Proof.
  intros He. pose proof all_doubles_ok as H.
  rewrite forallb_forall in H. apply H, list_elem_of_In.
  unfold delay_exponents. apply elem_of_seqZ. lia.
Qed.

Lemma is_delay_init : is_delay f1_0.
Proof. right. exists (-52). split; [lia | reflexivity]. Qed.

(** Doubling keeps a delay among the reachable ones and does not make
    it smaller; every reachable delay is at least 1.0. *)
Lemma is_delay_double (m : float) :
  is_delay m ->
  is_delay (fmul m f2_0) ∧ fle m (fmul m f2_0) = true.
Proof.
  intros [-> | (e & He & ->)].
  - split; [left|]; reflexivity.
  - pose proof (doubles_ok_in_range e He) as H. unfold doubles_ok in H.
    rewrite float_of_int_2 in H.
    rewrite !andb_true_iff in H. destruct H as [[[H1 H2] _] _].
    split; [|exact H2].
    destruct (fmul (pow2 e) f2_0) as [s|s| |s m e']; try discriminate.
    + destruct s; [discriminate|]. left. reflexivity.
    + destruct s; [discriminate|].
      rewrite !andb_true_iff in H1. destruct H1 as [[Hm He'] Hlt].
      apply Pos.eqb_eq in Hm. apply Z.eqb_eq in He'. apply Z.ltb_lt in Hlt.
      subst. right. exists (e + 1). split; [lia | reflexivity].
Qed.

Lemma is_delay_ge_1 (m : float) : is_delay m -> fle f1_0 m = true.
Proof.
  intros [-> | (e & He & ->)]; [reflexivity|].
  pose proof (doubles_ok_in_range e He) as H. unfold doubles_ok in H.
  rewrite !andb_true_iff in H. tauto.
Qed.

Lemma is_delay_refl (m : float) : is_delay m -> fle m m = true.
Proof.
  intros [-> | (e & He & ->)]; [reflexivity|].
  pose proof (doubles_ok_in_range e He) as H. unfold doubles_ok in H.
  rewrite !andb_true_iff in H. tauto.
Qed.

(** One [collect_batch] from a reachable delay. *)
Lemma collect_batch_is_delay r a :
  is_delay (delay_multiplier a) ->
  ∃ a' log data,
    collect_batch r a = Ok (a', log, data) ∧
    is_delay (delay_multiplier a') ∧
    fle (delay_multiplier a) (delay_multiplier a') = true.
Proof.
  intros Hd. destruct (get_success_rate_total a) as [rate Hr].
  rewrite (collect_batch_cases r a rate Hr).
  destruct (flt rate f0_5); eexists _, _, _;
    (split; [reflexivity|]); rewrite make_api_request_delay.
  - apply is_delay_double, Hd.
  - split; [exact Hd | apply is_delay_refl, Hd].
Qed.

Lemma run_op_is_delay (o : op) a :
  in_flow o = true ->
  is_delay (delay_multiplier a) ->
  is_delay (delay_multiplier (run_op o a)).
Proof.
  intros Hflow Hd. destruct o as [|r|r|data now|r now]; cbn [run_op].
  - discriminate.
  - rewrite make_api_request_delay. exact Hd.
  - destruct (collect_batch_is_delay r a Hd) as (a' & log & data & -> & H & _).
    exact H.
  - destruct (process_and_store data now a) as [[a' log]|e] eqn:E;
      [|exact Hd].
    rewrite (process_and_store_delay _ _ _ _ _ E). exact Hd.
  - unfold collect_and_store.
    destruct (collect_batch_is_delay r a Hd)
      as (a1 & log1 & data & -> & H & _).
    destruct (truthy data); [|exact H].
    destruct (process_and_store data now a1) as [[a2 log2]|e] eqn:E;
      [|exact H].
    cbn. rewrite (process_and_store_delay _ _ _ _ _ E). exact H.
Qed.

Lemma run_ops_is_delay (os : list op) a :
  forallb in_flow os = true ->
  is_delay (delay_multiplier a) ->
  is_delay (delay_multiplier (run_ops os a)).
Proof.
  revert a. induction os as [|o os IH]; intros a Hflow Hd; [exact Hd|].
  cbn [forallb] in Hflow. apply andb_true_iff in Hflow as [Ho Hos].
  apply (IH (run_op o a) Hos). apply run_op_is_delay; assumption.
Qed.

(** C9. In any state, [collect_batch] either leaves the delay multiplier
    alone (success rate not below 0.5) or doubles it (success rate below
    0.5), and then makes the request: it never takes the
    multiply-by-0.8 branch of [adjust_strategy]. Hence, from the initial
    agent and through any sequence of operations of the collection loop,
    the delay multiplier is at least 1.0 before a [collect_batch], is not
    smaller after it than before, and is at least 1.0 after it. *)
Theorem collect_batch_delay_invariant :
  (∀ r a, ∃ rate,
     get_success_rate a = Ok rate ∧
     collect_batch r a =
       if flt rate f0_5 then
         let a1 :=
           set_delay_multiplier a (fmul (delay_multiplier a) f2_0) in
         Ok ((make_api_request r a1).1.1,
             [(WARNING, LowSuccessRate (fmul (delay_multiplier a) f2_0))]
               ++ (make_api_request r a1).1.2,
             (make_api_request r a1).2)
       else
         Ok ((make_api_request r a).1.1, [] ++ (make_api_request r a).1.2,
             (make_api_request r a).2))
  ∧ (∀ cfg now (os : list op) r,
       forallb in_flow os = true ->
       fle f1_0 (delay_multiplier (run_ops os (init cfg now))) = true ∧
       ∃ a' log data,
         collect_batch r (run_ops os (init cfg now)) = Ok (a', log, data) ∧
         fle (delay_multiplier (run_ops os (init cfg now)))
             (delay_multiplier a') = true ∧
         fle f1_0 (delay_multiplier a') = true).
Proof.
  split.
  - intros r a. destruct (get_success_rate_total a) as [rate Hr].
    exists rate. split; [exact Hr | exact (collect_batch_cases r a rate Hr)].
  - intros cfg now os r Hflow.
    assert (Hd : is_delay (delay_multiplier (run_ops os (init cfg now))))
      by (apply run_ops_is_delay; [exact Hflow | exact is_delay_init]).
    split; [apply is_delay_ge_1, Hd|].
    destruct (collect_batch_is_delay r _ Hd) as (a' & log & data & E & H & Hle).
    exists a', log, data. repeat split; try assumption.
    apply is_delay_ge_1, H.
Qed.

(** After three batches that time out the delay is 4.0, and a fourth
    batch doubles it again. *)
Lemma collect_batch_delay_invariant_witness :
  fle f1_0
    (delay_multiplier
       (run_ops [OpCollectBatch (HttpRaises Timeout);
                 OpCollectBatch (HttpRaises Timeout);
                 OpCollectBatch (HttpRaises Timeout)]
          (init _default_config 0))) = true ∧
  ∃ a' log data,
    collect_batch (HttpRaises Timeout)
      (run_ops [OpCollectBatch (HttpRaises Timeout);
                OpCollectBatch (HttpRaises Timeout);
                OpCollectBatch (HttpRaises Timeout)]
         (init _default_config 0)) = Ok (a', log, data) ∧
    fle (delay_multiplier
           (run_ops [OpCollectBatch (HttpRaises Timeout);
                     OpCollectBatch (HttpRaises Timeout);
                     OpCollectBatch (HttpRaises Timeout)]
              (init _default_config 0)))
        (delay_multiplier a') = true ∧
    fle f1_0 (delay_multiplier a') = true.
Proof.
  apply (proj2 collect_batch_delay_invariant). reflexivity.
Defined.

End Delay.

(** ** Request counters and the data store *)

Section Counters.

Implicit Types (a : agent) (r : http_result).

(** Every record that [process_and_store] appends has passed
    [validate_data]. *)
Lemma process_and_store_valid data (now : string) a a' log :
  Forall (λ d, validate_data d = true) (data_store a) ->
  process_and_store data now a = Ok (a', log) ->
  Forall (λ d, validate_data d = true) (data_store a').
Proof.
  intros Hall. unfold process_and_store.
  destruct (process_data data now) as [p|e]; cbn [mbind result_bind];
    [|discriminate].
  destruct (validate_data p) eqn:Hv; intros [= <- _]; [|exact Hall].
  cbn. apply Forall_app. split; [exact Hall|]. constructor; [exact Hv|].
  constructor.
Qed.

Lemma make_api_request_store r a :
  data_store (make_api_request r a).1.1 = data_store a.
Proof.
  unfold make_api_request. destruct r as [e|status body]; [reflexivity|].
  destruct (status =? 200); [|reflexivity].
  destruct (_ ≫= _); reflexivity.
Qed.

Lemma collect_batch_store r a a' log data :
  collect_batch r a = Ok (a', log, data) -> data_store a' = data_store a.
Proof.
  destruct (get_success_rate_total a) as [rate Hr].
  rewrite (collect_batch_cases r a rate Hr).
  destruct (flt rate f0_5); intros [= <- _ _];
    rewrite make_api_request_store; reflexivity.
Qed.

Lemma adjust_strategy_store a a' log :
  adjust_strategy a = Ok (a', log) -> data_store a' = data_store a.
Proof.
  destruct (get_success_rate_total a) as [rate Hr].
  rewrite (adjust_strategy_cases a rate Hr).
  destruct (flt rate f0_5); [|destruct (flt f0_9 rate)];
    intros [= <- _]; reflexivity.
Qed.

Lemma run_op_valid (o : op) a :
  Forall (λ d, validate_data d = true) (data_store a) ->
  Forall (λ d, validate_data d = true) (data_store (run_op o a)).
Proof.
  intros Hall. destruct o as [|r|r|data now|r now]; cbn [run_op].
  - destruct (adjust_strategy a) as [[a' log]|e] eqn:E; [|exact Hall].
    rewrite (adjust_strategy_store _ _ _ E). exact Hall.
  - rewrite make_api_request_store. exact Hall.
  - destruct (collect_batch r a) as [[[a' log] data]|e] eqn:E; [|exact Hall].
    rewrite (collect_batch_store _ _ _ _ _ E). exact Hall.
  - destruct (process_and_store data now a) as [[a' log]|e] eqn:E;
      [|exact Hall].
    exact (process_and_store_valid _ _ _ _ _ Hall E).
  - unfold collect_and_store.
    destruct (collect_batch r a) as [[[a1 log1] data]|e] eqn:E; [|exact Hall].
    assert (H1 : Forall (λ d, validate_data d = true) (data_store a1))
      by (rewrite (collect_batch_store _ _ _ _ _ E); exact Hall).
    destruct (truthy data); [|exact H1].
    destruct (process_and_store data now a1) as [[a2 log2]|e] eqn:E2;
      [|exact H1].
    exact (process_and_store_valid _ _ _ _ _ H1 E2).
Qed.

Lemma run_ops_valid (os : list op) a :
  Forall (λ d, validate_data d = true) (data_store a) ->
  Forall (λ d, validate_data d = true) (data_store (run_ops os a)).
Proof.
  revert a. induction os as [|o os IH]; intros a Ha; [exact Ha|].
  apply (IH (run_op o a)), run_op_valid, Ha.
Qed.

(** The part of C10 that holds: after any sequence of operations from
    the initial agent, every stored record passes [validate_data]. *)
Lemma data_store_valid cfg now (os : list op) :
  Forall (λ d, validate_data d = true)
         (data_store (run_ops os (init cfg now))).
Proof. apply run_ops_valid. constructor. Qed.

(** How [make_api_request] counts: one request, and one outcome, except
    that a 200 response whose body cannot be used is counted as a
    success and then, by the [except] clause, as a failure too. *)
Lemma make_api_request_counts r a :
  total_requests (make_api_request r a).1.1 = total_requests a + 1 ∧
  ((successful_requests (make_api_request r a).1.1
      = successful_requests a + 1 ∧
    failed_requests (make_api_request r a).1.1 = failed_requests a)
   ∨ (successful_requests (make_api_request r a).1.1
        = successful_requests a ∧
      failed_requests (make_api_request r a).1.1 = failed_requests a + 1)
   ∨ (successful_requests (make_api_request r a).1.1
        = successful_requests a + 1 ∧
      failed_requests (make_api_request r a).1.1 = failed_requests a + 1 ∧
      ∃ body, r = HttpResponse 200 body)).
Proof.
  unfold make_api_request. destruct r as [e|status body].
  - split; [reflexivity|]. right. left. split; reflexivity.
  - destruct (Z.eqb_spec status 200) as [->|Hne].
    + destruct (_ ≫= _); (split; [reflexivity|]).
      * left. split; reflexivity.
      * right. right. repeat split. exists body. reflexivity.
    + split; [reflexivity|]. right. left. split; reflexivity.
Qed.

(** C10, at the failing input. The first request of a fresh agent is
    answered with status 200 and a body that is not JSON:
    [make_api_request] counts one request, one success and one failure,
    so [total_requests] is not the sum of the other two counters. *)
Theorem double_counted_request :
  total_requests
    (make_api_request (HttpResponse 200 None) (init _default_config 0)).1.1
    = 1 ∧
  successful_requests
    (make_api_request (HttpResponse 200 None) (init _default_config 0)).1.1
    = 1 ∧
  failed_requests
    (make_api_request (HttpResponse 200 None) (init _default_config 0)).1.1
    = 1 ∧
  total_requests
    (make_api_request (HttpResponse 200 None) (init _default_config 0)).1.1
  <> successful_requests
       (make_api_request (HttpResponse 200 None)
          (init _default_config 0)).1.1
     + failed_requests
         (make_api_request (HttpResponse 200 None)
            (init _default_config 0)).1.1.
Proof. repeat split. discriminate. Qed.

End Counters.

(** ** Exceptions raised by a request *)

Section Guards.

(** When the request raises, [collect_batch] returns [None]. *)
Lemma collect_batch_raises_none (e : exn) (a : agent) :
  ∃ a' log, collect_batch (HttpRaises e) a = Ok (a', log, PNone).
Proof.
  destruct (get_success_rate_total a) as [rate Hr].
  rewrite (collect_batch_cases _ a rate Hr).
  destruct (flt rate f0_5); eexists _, _; reflexivity.
Qed.

(** In [get_cat_facts] no request is made after one that raises. *)
Lemma fetch_loop_stops (net : nat -> http_result) (i : nat) (e : exn) :
  net i = HttpRaises e ->
  ∀ todo i0 facts,
    (i0 <= i < i0 + todo)%nat ->
    ((CatFacts.fetch_loop net i0 todo facts).2 <= S i)%nat.
Proof.
  intros Hi. induction todo as [|todo IH]; intros i0 facts Hrange; [lia|].
  cbn [CatFacts.fetch_loop].
  destruct (CatFacts.fetch_one i0 (net i0) facts) as [[facts' log1]|e']
    eqn:E; [|cbn; lia].
  destruct (decide (i0 = i)) as [->|Hne].
  - rewrite Hi in E. discriminate E.
  - specialize (IH (S i0) facts' ltac:(lia)).
    destruct (CatFacts.fetch_loop net (S i0) todo facts') as [[f l] n].
    exact IH.
Qed.

(** C2, as stated, fails: asked for three facts on a network whose first
    request times out, [get_cat_facts] makes one request, not three, and
    returns no fact. *)
Lemma get_cat_facts_stops_at_exception :
  (CatFacts.get_cat_facts 3 CatFacts.timeout_first).2 = 1%nat ∧
  (CatFacts.get_cat_facts 3 CatFacts.timeout_first).1.1 = [] ∧
  (CatFacts.get_cat_facts 3 CatFacts.always_a_fact).2 = 3%nat.
Proof. repeat split. Qed.

(** C2, amended. Every request is made inside a broad exception guard,
    and an exception raised by a request is logged and goes no further:
    - [make_api_request] counts the request as failed, logs the error
      and returns [None], and [collect_batch] and the storing step of
      the loop body (lines 65 to 67 of [run_collection]) end without an
      exception;
    - [get_public_holidays] logs the error and returns [None], and the
      script counts 0 holidays for the country and goes on with the next
      country;
    - in [get_cat_facts] the guard is around the whole loop: at the
      request that raises, the loop ends with the error logged and the
      facts gathered so far, and no later request is made. *)
Theorem request_exceptions_are_caught :
  (∀ e a,
     make_api_request (HttpRaises e) a
     = (set_failed_requests
          (set_total_requests a (total_requests a + 1))
          (failed_requests a + 1),
        [(ERROR, RequestError e)], PNone))
  ∧ (∀ e now a, (collect_and_store (HttpRaises e) now a).2 = Ok ())
  ∧ (∀ country_code year e,
       Holidays.get_public_holidays country_code year (HttpRaises e)
       = (PNone,
          [(INFO, Holidays.FetchingHolidays country_code year);
           (ERROR, Holidays.handler country_code e)]))
  ∧ (∀ net i country rest summary e,
       net i = HttpRaises e ->
       Holidays.for_countries net i (country :: rest) summary
       = let k := Holidays.for_countries net (S i) rest
                    (Holidays.dict_set country 0 summary) in
         {| Holidays.requests_made := Holidays.requests_made k;
            Holidays.countries_summary := Holidays.countries_summary k;
            Holidays.printed :=
              Holidays.PrintFailed country :: Holidays.printed k;
            Holidays.logged :=
              [(INFO, Holidays.FetchingHolidays country 2024);
               (ERROR, Holidays.handler country e)]
              ++ Holidays.logged k;
            Holidays.files := Holidays.files k;
            Holidays.finished := Holidays.finished k |})
  ∧ (∀ net i todo facts e,
       net i = HttpRaises e ->
       CatFacts.fetch_loop net i (S todo) facts
       = (facts, [(ERROR, CatFacts.handler e)], S i))
  ∧ (∀ num_facts net i e,
       (i < Z.to_nat num_facts)%nat ->
       net i = HttpRaises e ->
       ((CatFacts.get_cat_facts num_facts net).2 <= S i)%nat).
Proof.
  repeat apply conj.
  - reflexivity.
  - intros e now a. unfold collect_and_store.
    destruct (collect_batch_raises_none e a) as (a' & log & ->).
    reflexivity.
  - reflexivity.
  - intros net i country rest summary e Hi.
    cbn [Holidays.for_countries]. rewrite Hi. reflexivity.
  - intros net i todo facts e Hi.
    cbn [CatFacts.fetch_loop]. rewrite Hi. reflexivity.
  - intros num_facts net i e Hlt Hi. unfold CatFacts.get_cat_facts.
    pose proof (fetch_loop_stops net i e Hi (Z.to_nat num_facts) 0%nat [])
      as H.
    destruct (CatFacts.fetch_loop net 0 (Z.to_nat num_facts) [])
      as [[facts log] n].
    apply H. lia.
Qed.

(** On a network whose second request times out: the holidays script
    still makes its three requests and finishes, while [get_cat_facts]
    asked for five facts stops after its second request. *)
Lemma request_exceptions_are_caught_witness :
  Holidays.requests_made
    (Holidays.for_countries Holidays.timeout_second 1 ["CA"; "GB"]
       [("US", 1)]) = 3%nat
  ∧ ((CatFacts.get_cat_facts 5 Holidays.timeout_second).2 <= 2)%nat.
Proof.
  split.
  - rewrite (proj1 (proj2 (proj2 (proj2 request_exceptions_are_caught)))
               Holidays.timeout_second 1%nat "CA" ["GB"] [("US", 1)]
               Timeout eq_refl).
    reflexivity.
  - apply (proj2 (proj2 (proj2 (proj2 (proj2
             request_exceptions_are_caught))))
             5 Holidays.timeout_second 1%nat Timeout);
      [vm_compute; lia | reflexivity].
Defined.

End Guards.

(** ** Files written *)

Section Files.

Implicit Types fs : file_system.

(** The loop over the countries writes no file. *)
Lemma for_countries_no_files (net : nat -> http_result)
    (countries : list string) :
  ∀ i summary,
    Holidays.files (Holidays.for_countries net i countries summary) = [].
Proof.
  induction countries as [|country rest IH]; intros i summary;
    [reflexivity|].
  cbn [Holidays.for_countries].
  destruct (Holidays.get_public_holidays country 2024 (net i))
    as [holidays log1].
  destruct (truthy holidays); [|apply IH].
  destruct (len holidays) as [n|e]; [|reflexivity].
  destruct (Holidays.print_holiday_details holidays country)
    as [[out log2] [u|e]]; [apply IH | reflexivity].
Qed.




End Files.

(** ** Reading the files back *)

Section JsonFiles.

Lemma nodes_lookup (d : gmap string pyval) (k : string) (x : pyval) :
  d !! k = Some x ->
  (Json.nodes x <= map_fold (λ _ x n, Json.nodes x + n) 0 d)%nat.
Proof.
  revert k x.
  apply (map_fold_weak_ind
           (λ r (m : gmap string pyval),
              ∀ k x, m !! k = Some x -> (Json.nodes x <= r)%nat)).
  - intros k x Hk. rewrite lookup_empty in Hk. discriminate.
  - intros i y m r Hi IH k x Hk.
    destruct (decide (k = i)) as [->|Hne].
    + rewrite lookup_insert_eq in Hk. injection Hk as ->. lia.
    + rewrite lookup_insert_ne in Hk by congruence.
      specialize (IH k x Hk). lia.
Qed.

Lemma nodes_elem (l : list pyval) (x : pyval) :
  x ∈ l -> (Json.nodes x <= foldr (λ x n, Json.nodes x + n) 0 l)%nat.
Proof.
  induction 1 as [x l|x y l Hin IH]; cbn [foldr]; lia.
Qed.

(** Induction on a value through its lists and dicts. *)
Lemma pyval_nested_ind (P : pyval -> Prop) :
  P PNone ->
  (∀ b, P (PBool b)) ->
  (∀ z, P (PInt z)) ->
  (∀ f, P (PFloat f)) ->
  (∀ s, P (PStr s)) ->
  (∀ l, Forall P l -> P (PList l)) ->
  (∀ d, map_Forall (λ _, P) d -> P (PDict d)) ->
  ∀ v, P v.
Proof.
  intros HN HB HI HF HS HL HD v.
  remember (Json.nodes v) as n eqn:Hn. revert v Hn.
  induction (lt_wf n) as [n _ IH]. intros v ->.
  destruct v as [|b|z|f|s|l|d]; auto.
  - apply HL. apply Forall_forall. intros x Hx.
    apply (IH (Json.nodes x)); [|reflexivity].
    pose proof (nodes_elem l x Hx). cbn [Json.nodes]. lia.
  - apply HD. intros k x Hk.
    apply (IH (Json.nodes x)); [|reflexivity].
    pose proof (nodes_lookup d k x Hk). cbn [Json.nodes]. lia.
Qed.

(** Reading back the text made of a value gives the value. *)
Lemma load_encode (v : pyval) : Json.load (Json.encode v) = v.
Proof.
  induction v as [|b|z|f|s|l IH|d IH] using pyval_nested_ind;
    try reflexivity.
  - destruct b; reflexivity.
  - destruct f as [s|s| |s m e]; try reflexivity. destruct s; reflexivity.
  - cbn [Json.encode Json.load]. f_equal.
    rewrite <- list_fmap_compose.
    rewrite <- (list_fmap_id l) at 2.
    apply Forall_fmap_ext_1. exact IH.
  - cbn [Json.encode Json.load]. f_equal.
    rewrite <- map_to_list_fmap, <- map_fmap_compose.
    assert (Hd : Json.load ∘ Json.encode <$> d = d).
    { rewrite <- (map_fmap_id d) at 2.
      apply map_fmap_ext. intros k x Hk. exact (IH k x Hk). }
    rewrite Hd.
    transitivity (list_to_map (map_to_list d) : gmap string pyval);
      [|apply list_to_map_to_list].
    symmetry. apply list_to_map_proper;
      [apply NoDup_fst_map_to_list | symmetry; apply reverse_Permutation].
Qed.

Lemma surrogates_dict (d : gmap string pyval) :
  Json.surrogates (PDict d) = false <->
  ∀ k x, d !! k = Some x ->
         has_surrogate k = false ∧ Json.surrogates x = false.
Proof.
  cbn [Json.surrogates].
  apply (map_fold_weak_ind
           (λ r (m : gmap string pyval),
              r = false <->
              ∀ k x, m !! k = Some x ->
                     has_surrogate k = false ∧ Json.surrogates x = false)).
  - split; [|reflexivity]. intros _ k x Hk.
    rewrite lookup_empty in Hk. discriminate.
  - intros i y m r Hi IH. rewrite !orb_false_iff, IH. split.
    + intros [[Hi' Hy] Hm] k x Hk.
      destruct (decide (k = i)) as [->|Hne].
      * rewrite lookup_insert_eq in Hk. injection Hk as <-. tauto.
      * rewrite lookup_insert_ne in Hk by congruence. exact (Hm k x Hk).
    + intros H. split.
      * apply (H i y). apply lookup_insert_eq.
      * intros k x Hk. apply (H k x).
        rewrite lookup_insert_ne; [exact Hk|]. congruence.
Qed.

Lemma dump_ascii (v : pyval) : Json.dump true v = Ok (Json.encode v).
Proof. reflexivity. Qed.

Lemma dump_plain (v : pyval) :
  Json.dump false v
  = if Json.surrogates v then Raise UnicodeEncodeError
    else Ok (Json.encode v).
Proof. reflexivity. Qed.


Lemma dict_set_keys (k k' : string) (v : Z) (d : list (string * Z)) :
  k' ∈ (Holidays.dict_set k v d).*1 -> k' = k ∨ k' ∈ d.*1.
Proof.
  induction d as [|[k0 v0] d IH]; cbn [Holidays.dict_set].
  - intros H. apply list_elem_of_singleton in H. left. exact H.
  - destruct (String.eqb_spec k0 k) as [->|Hne]; cbn [fmap list_fmap fst].
    + intros H. right. exact H.
    + intros H. apply elem_of_cons in H as [->|H].
      * right. left.
      * destruct (IH H) as [->|Hin]; [left; reflexivity|].
        right. right. exact Hin.
Qed.

(** The keys of the summary are among those it had and the countries
    asked for. *)
Lemma for_countries_keys (net : nat -> http_result)
    (countries : list string) :
  ∀ i summary k,
    k ∈ (Holidays.countries_summary
           (Holidays.for_countries net i countries summary)).*1 ->
    k ∈ summary.*1 ∨ k ∈ countries.
Proof.
  induction countries as [|country rest IH]; intros i summary k;
    cbn [Holidays.for_countries].
  - intros H. left. exact H.
  - assert (Hset : ∀ n,
              k ∈ (Holidays.dict_set country n summary).*1 ->
              k ∈ summary.*1 ∨ k ∈ country :: rest).
    { intros n H. destruct (dict_set_keys _ _ _ _ H) as [->|Hin];
        [right; left | left; exact Hin]. }
    assert (Hrec : ∀ n j,
              k ∈ (Holidays.countries_summary
                     (Holidays.for_countries net j rest
                        (Holidays.dict_set country n summary))).*1 ->
              k ∈ summary.*1 ∨ k ∈ country :: rest).
    { intros n j H. destruct (IH _ _ _ H) as [Hin|Hin];
        [exact (Hset n Hin) | right; right; exact Hin]. }
    destruct (Holidays.get_public_holidays country 2024 (net i))
      as [holidays log1].
    destruct (truthy holidays); [|apply Hrec].
    destruct (len holidays) as [n|e]; [|intros H; left; exact H].
    destruct (Holidays.print_holiday_details holidays country)
      as [[out log2] [u|e]]; [apply Hrec | apply Hset].
Qed.

Lemma max_from_in (best : string * Z) (rest : list (string * Z)) :
  Holidays.max_from best rest ∈ best :: rest.
Proof.
  revert best. induction rest as [|kv rest IH]; intros best;
    cbn [Holidays.max_from]; [left|].
  destruct (kv.2 >? best.2).
  - right. apply IH.
  - specialize (IH best). apply elem_of_cons in IH as [->|Hin];
      [left | right; right; exact Hin].
Qed.

Lemma min_from_in (best : string * Z) (rest : list (string * Z)) :
  Holidays.min_from best rest ∈ best :: rest.
Proof.
  revert best. induction rest as [|kv rest IH]; intros best;
    cbn [Holidays.min_from]; [left|].
  destruct (kv.2 <? best.2).
  - right. apply IH.
  - specialize (IH best). apply elem_of_cons in IH as [->|Hin];
      [left | right; right; exact Hin].
Qed.

(** A summary whose country codes hold no surrogate holds none. *)
Lemma holiday_summary_plain (fs : file_system)
    (countries_data : list (string * Z)) (path : string) (v : pyval) :
  (∀ k, k ∈ countries_data.*1 -> has_surrogate k = false) ->
  WriteJson path v
    ∈ (Holidays.create_holiday_summary fs countries_data).1.1.2 ->
  Json.surrogates v = false.
Proof.
  intros Hkeys. unfold Holidays.create_holiday_summary.
  assert (Hv : Json.surrogates
                 (PDict {[ "holiday_summary" :=
                     PDict {[ "countries" :=
                                PDict (list_to_map
                                         ((λ kv : string * Z,
                                             (kv.1, PInt kv.2))
                                          <$> countries_data));
                              "statistics" :=
                                PDict (Holidays.statistics countries_data)
                           ]} ]}) = false).
  { assert (Hentry : ∀ kv, kv ∈ countries_data ->
                           Json.surrogates (Holidays.count_entry kv) = false).
    { intros kv Hin. unfold Holidays.count_entry. apply surrogates_dict.
      intros k x Hk. apply lookup_insert_Some in Hk as [[<- <-]|[_ Hk]].
      - split; [reflexivity|]. apply Hkeys.
        apply list_elem_of_fmap. exists kv. split; [reflexivity | exact Hin].
      - apply lookup_singleton_Some in Hk as [<- <-]. split; reflexivity. }
    apply surrogates_dict. intros k x Hk.
    apply lookup_singleton_Some in Hk as [<- <-]. split; [reflexivity|].
    apply surrogates_dict. intros k x Hk.
    apply lookup_insert_Some in Hk as [[<- <-]|[_ Hk]].
    - split; [reflexivity|]. apply surrogates_dict. intros k x Hk.
      apply elem_of_list_to_map_2, list_elem_of_fmap in Hk
        as ([k' n] & [= -> ->] & Hin).
      split; [|reflexivity]. apply Hkeys.
      apply list_elem_of_fmap. exists (k', n). split; [reflexivity | exact Hin].
    - apply lookup_singleton_Some in Hk as [<- <-]. split; [reflexivity|].
      unfold Holidays.statistics.
      destruct countries_data as [|kv rest]; [reflexivity|].
      apply surrogates_dict. intros k x Hk.
      apply lookup_insert_Some in Hk as [[<- <-]|[_ Hk]].
      + split; [reflexivity|]. apply Hentry, max_from_in.
      + apply lookup_singleton_Some in Hk as [<- <-].
        split; [reflexivity|]. apply Hentry, min_from_in. }
  destruct (can_open fs Holidays.holidays_summary_json).
  - rewrite dump_plain, Hv. cbn [fst snd]. intros H.
    apply list_elem_of_singleton in H. injection H as _ ->. exact Hv.
  - cbn [fst snd]. intros H. apply elem_of_nil in H. contradiction.
Qed.


Lemma SFeqb_refl (f : float) : f <> S754_nan -> SFeqb f f = true.
Proof.
  intros Hf. unfold SFeqb.
  destruct f as [s|s| |s m e]; [destruct s; reflexivity
                               | destruct s; reflexivity | congruence |].
  cbn [SFcompare]. destruct s; rewrite Z.compare_refl, Pos.compare_cont_refl;
    reflexivity.
Qed.

Lemma fold_all (p : string -> pyval -> bool) (d : gmap string pyval) :
  map_fold (λ k x found, p k x && found) true d = true <->
  ∀ k x, d !! k = Some x -> p k x = true.
Proof.
  apply (map_fold_weak_ind
           (λ r (m : gmap string pyval),
              r = true <-> ∀ k x, m !! k = Some x -> p k x = true)).
  - split; [|reflexivity]. intros _ k x Hk.
    rewrite lookup_empty in Hk. discriminate.
  - intros i y m r Hi IH. rewrite andb_true_iff, IH. split.
    + intros [Hy Hm] k x Hk.
      destruct (decide (k = i)) as [->|Hne].
      * rewrite lookup_insert_eq in Hk. injection Hk as <-. exact Hy.
      * rewrite lookup_insert_ne in Hk by congruence. exact (Hm k x Hk).
    + intros H. split.
      * apply (H i y). apply lookup_insert_eq.
      * intros k x Hk. apply (H k x).
        rewrite lookup_insert_ne; [exact Hk|]. congruence.
Qed.

(** A value without NaN equals itself. *)
Lemma py_eq_refl (v : pyval) :
  Equal.nan_free v = true -> Equal.py_eq v v = true.
Proof.
  induction v as [|b|z|f|s|l IH|d IH] using pyval_nested_ind;
    cbn [Equal.nan_free Equal.py_eq Equal.as_number Equal.num_eqb].
  - reflexivity.
  - intros _. apply Z.eqb_refl.
  - intros _. apply Z.eqb_refl.
  - intros Hf. apply SFeqb_refl. intros ->. discriminate Hf.
  - intros _. apply String.eqb_refl.
  - induction IH as [|x l Hx _ IHl]; [reflexivity|].
    cbn [forallb]. intros H. apply andb_true_iff in H as [H1 H2].
    rewrite (Hx H1). exact (IHl H2).
  - intros Hd. rewrite bool_decide_eq_true_2 by reflexivity. cbn [andb].
    pose proof (proj1 (fold_all (λ _ x, Equal.nan_free x) d) Hd) as Hall.
    apply (fold_all (λ k x, match d !! k with
                            | Some y => Equal.py_eq x y
                            | None => false
                            end)).
    intros k x Hk. rewrite Hk. apply (IH k x Hk), (Hall k x Hk).
Qed.
(** NaN is read back as NaN, and NaN does not equal NaN. *)
Lemma py_eq_nan :
  Json.load (Json.encode (PFloat S754_nan)) = PFloat S754_nan ∧
  Equal.py_eq (Json.load (Json.encode (PFloat S754_nan))) (PFloat S754_nan)
  = false.
Proof. split; reflexivity. Qed.

Lemma facts_surrogates (facts : list pyval) :
  Json.surrogates (PDict {[ "facts" := PList facts ]})
  = existsb Json.surrogates facts.
Proof.
  cbn [Json.surrogates]. rewrite map_fold_singleton.
  cbn [Json.surrogates]. rewrite orb_false_r. reflexivity.
Qed.

(** C7, as stated, fails: when the API answers every request with the
    fact ["\ud83d"], a list holding a string that is a lone surrogate,
    the cat-facts script keeps five such facts, prints them and calls
    [json.dump] on them; writing to the UTF-8 file raises
    UnicodeEncodeError, which [save_facts_to_json] logs: the file
    [cat_facts.json] holds the beginning of a JSON text, and nothing
    can be read back from it. *)
Lemma cat_facts_lone_surrogate :
  CatFacts.files (CatFacts.script CatFacts.surrogate_fact all_writable)
  = [WriteJson "cat_facts.json"
       (PDict {[ "facts" :=
                   PList (replicate 5 (PList [PStr Json.lone_surrogate])) ]})]
  ∧ Json.dump false
      (PDict {[ "facts" :=
                  PList (replicate 5 (PList [PStr Json.lone_surrogate])) ]})
    = Raise UnicodeEncodeError
  ∧ last (CatFacts.logged
            (CatFacts.script CatFacts.surrogate_fact all_writable))
    = Some (ERROR, CatFacts.FailedToSave UnicodeEncodeError).
Proof. repeat split; vm_compute; reflexivity. Qed.

(** C7, amended. Reading back the JSON text made of a value gives the
    value itself, with its types: an int stays an int, a float the same
    float, a dict a dict with the same keys. NaN is written as NaN and
    read back as NaN: the value read equals the value written under
    Python's [==] whenever no float in it is NaN. Hence:
    - each of the four files that [save_reports] writes, with
      [ensure_ascii] left on, holds a text that reads back as the value
      written;
    - so does [holidays_summary.json], when the holidays script writes
      it: its strings are the country codes and fixed keys;
    - so does [cat_facts.json] when no string among the facts holds a
      lone surrogate; when one does, [json.dump], called with
      [ensure_ascii=False] on a UTF-8 file, raises UnicodeEncodeError
      and there is no text to read back. *)
Theorem json_round_trip :
  (∀ v, Json.load (Json.encode v) = v)
  ∧ (∀ v, Equal.nan_free v = true ->
          Equal.py_eq (Json.load (Json.encode v)) v = true)
  ∧ (∀ fs a summary quality_report metadata path v,
       WriteJson path v
         ∈ (save_reports fs a summary quality_report metadata).1.1 ->
       ∃ j, Json.dump true v = Ok j ∧ Json.load j = v)
  ∧ (∀ net fs path v,
       WriteJson path v ∈ Holidays.files (Holidays.script net fs) ->
       ∃ j, Json.dump false v = Ok j ∧ Json.load j = v)
  ∧ (∀ net fs path v,
       WriteJson path v ∈ CatFacts.files (CatFacts.script net fs) ->
       v = PDict {[ "facts" := PList (CatFacts.get_cat_facts 5 net).1.1 ]}
       ∧ if existsb Json.surrogates (CatFacts.get_cat_facts 5 net).1.1
         then Json.dump false v = Raise UnicodeEncodeError
         else ∃ j, Json.dump false v = Ok j ∧ Json.load j = v).
Proof.
  split; [exact load_encode|]. split; [|split; [|split]].
  - intros v Hv. rewrite load_encode. exact (py_eq_refl v Hv).
  - intros fs a summary quality_report metadata path v _.
    exists (Json.encode v). split; [reflexivity | apply load_encode].
  - intros net fs path v. unfold Holidays.script.
    destruct (Holidays.finished (Holidays.for_countries _ _ _ _)) eqn:E.
    + destruct (Holidays.create_holiday_summary fs _)
        as [[[out evs] log] ok] eqn:Es.
      cbn [Holidays.files]. intros Hin.
      assert (Hv : Json.surrogates v = false).
      { apply (holiday_summary_plain fs
                 (Holidays.countries_summary
                    (Holidays.for_countries net 0 ["US"; "CA"; "GB"] []))
                 path v).
        - intros k Hk.
          destruct (for_countries_keys net _ _ _ _ Hk) as [Hin'|Hin'].
          + apply elem_of_nil in Hin'. contradiction.
          + repeat (apply elem_of_cons in Hin' as [->|Hin'];
                    [reflexivity|]).
            apply elem_of_nil in Hin'. contradiction.
        - rewrite Es. exact Hin. }
      exists (Json.encode v). rewrite dump_plain, Hv.
      split; [reflexivity | apply load_encode].
    + rewrite for_countries_no_files. intros Hin.
      apply elem_of_nil in Hin. contradiction.
  - intros net fs path v. unfold CatFacts.script.
    destruct (CatFacts.get_cat_facts 5 net) as [[facts log] n].
    cbn [fst].
    destruct (truthy (PList facts));
      [|intros Hin; apply elem_of_nil in Hin; contradiction].
    unfold CatFacts.save_facts_to_json.
    destruct (can_open fs "cat_facts.json");
      [|intros Hin; apply elem_of_nil in Hin; contradiction].
    assert (Hin : WriteJson path v
                    ∈ [WriteJson "cat_facts.json"
                         (PDict {[ "facts" := PList facts ]})] ->
                  v = PDict {[ "facts" := PList facts ]}).
    { intros Hin. apply list_elem_of_singleton in Hin.
      injection Hin as _ ->. reflexivity. }
    intros Hw.
    assert (Hv : v = PDict {[ "facts" := PList facts ]})
      by (destruct (Json.dump _ _); exact (Hin Hw)).
    split; [exact Hv|]. rewrite Hv, dump_plain, facts_surrogates.
    destruct (existsb Json.surrogates facts); [reflexivity|].
    eexists. split; [reflexivity | apply load_encode].
Qed.

(** The records of one stored market, five facts and one holiday per
    country read back as they were written. *)
Lemma json_round_trip_witness :
  (∃ j, Json.dump true (PList (PDict <$> data_store one_market)) = Ok j ∧
        Json.load j = PList (PDict <$> data_store one_market))
  ∧ (∃ j, Json.dump false
            (PDict {[ "facts" := PList (replicate 5 (PStr "Cats purr.")) ]})
          = Ok j ∧
          Json.load j
          = PDict {[ "facts" := PList (replicate 5 (PStr "Cats purr.")) ]})
  ∧ (∀ path v,
       WriteJson path v
         ∈ Holidays.files (Holidays.script Holidays.one_holiday all_writable)
       -> ∃ j, Json.dump false v = Ok j ∧ Json.load j = v).
Proof.
  split; [|split].
  - apply (proj1 (proj2 (proj2 json_round_trip)) all_writable one_market
             PNone PNone PNone collected_data_json).
    right. left.
  - assert (Hf : CatFacts.files
                   (CatFacts.script CatFacts.always_a_fact all_writable)
                 = [WriteJson "cat_facts.json"
                      (PDict {[ "facts" :=
                                  PList (replicate 5 (PStr "Cats purr.")) ]})])
      by (vm_compute; reflexivity).
    destruct (proj2 (proj2 (proj2 (proj2 json_round_trip)))
                CatFacts.always_a_fact all_writable "cat_facts.json"
                (PDict {[ "facts" :=
                            PList (replicate 5 (PStr "Cats purr.")) ]}))
      as [_ H]; [rewrite Hf; left|].
    exact H.
  - exact (proj1 (proj2 (proj2 (proj2 json_round_trip)))
             Holidays.one_holiday all_writable).
Defined.

End JsonFiles.

(** * Further properties of the agent *)

Import KalshiRun.

Section Store.

Implicit Types (a : agent) (d : gmap string pyval) (r : http_result).

Lemma process_data_dict d (now : string) :
  process_data (PDict d) now
  = Ok (<["ticker" := get_default d "ticker" (PStr "N/A")]>
        (<["title" := get_default d "title" (PStr "N/A")]>
        (<["category" := get_default d "category" (PStr "Unknown")]>
        (<["status" := get_default d "status" (PStr "Unknown")]>
        (<["last_price" := get_default d "last_price" (PInt 0)]>
        (<["volume" := get_default d "volume" (PInt 0)]>
        (<["collection_timestamp" := PStr now]> ∅))))))).
Proof. reflexivity. Qed.

Lemma process_data_not_dict (v : pyval) (now : string) :
  (∀ d, v <> PDict d) -> process_data v now = Raise AttributeError.
Proof. intros H. destruct v; try reflexivity. destruct (H d eq_refl). Qed.

(** On the record built from a dict, [validate_data] is [storable]. *)
Lemma validate_processed d (now : string) record :
  process_data (PDict d) now = Ok record ->
  validate_data record = storable d.
Proof.
  rewrite process_data_dict. intros [= <-].
  unfold validate_data, storable, required_fields. cbn [forallb].
  unfold get at 1 2 3 4 5 6.
  rewrite lookup_insert_eq.
  rewrite lookup_insert_ne, lookup_insert_eq by done.
  rewrite !(lookup_insert_ne _ "ticker") by done.
  rewrite !(lookup_insert_ne _ "title") by done.
  rewrite lookup_insert_eq. cbn [default].
  unfold get_default, get, filled.
  destruct (d !! "ticker") as [t|], (d !! "title") as [u|],
    (d !! "category") as [c|]; simpl;
    rewrite ?negb_orb, ?negb_involutive, ?andb_true_r, ?andb_false_r,
      ?andb_assoc; reflexivity.
Qed.

Lemma process_and_store_dict d (now : string) a :
  ∃ record log,
    process_and_store (PDict d) now a
    = Ok (if storable d
          then set_data_store a (data_store a ++ [record])
          else a, log).
Proof.
  destruct (process_data (PDict d) now) as [record|e] eqn:E;
    [|rewrite process_data_dict in E; discriminate].
  pose proof (validate_processed d now record E) as Hv.
  unfold process_and_store. rewrite E. cbn [mbind result_bind].
  rewrite Hv. exists record. destruct (storable d); eexists; reflexivity.
Qed.

(** X1. For a market [d] that is a dict, [process_and_store] returns
    without raising. When the ticker and the title of [d] are present,
    true and not 'N/A', and its category is absent or true and not
    'N/A', the data store of the agent it leaves is the old one with the
    processed record added at the end, and one line is logged, with the
    new length of the store; otherwise the data store is the old one
    and nothing is logged. The rest of the agent is as it was. *)
Theorem process_and_store_storable d (now : string) a :
  ∃ record a' log,
    process_data (PDict d) now = Ok record ∧
    process_and_store (PDict d) now a = Ok (a', log) ∧
    data_store a'
    = (if storable d then data_store a ++ [record] else data_store a) ∧
    log
    = (if storable d
       then [(INFO,
              StoredDataPoint (Z.of_nat (length (data_store a ++ [record])))
                (get_default (config a) "num_markets" (PInt 5)))]
       else []) ∧
    config a' = config a ∧
    start_time a' = start_time a ∧
    total_requests a' = total_requests a ∧
    successful_requests a' = successful_requests a ∧
    failed_requests a' = failed_requests a ∧
    delay_multiplier a' = delay_multiplier a.
Proof.
  destruct (process_data (PDict d) now) as [record|e] eqn:E;
    [|rewrite process_data_dict in E; discriminate].
  pose proof (validate_processed d now record E) as Hv.
  unfold process_and_store. rewrite E. cbn [mbind result_bind].
  rewrite Hv. exists record.
  destruct (storable d); eexists _, _;
    (split; [reflexivity|]); (split; [reflexivity|]); cbn; tauto.
Qed.

Lemma process_and_store_raises data (now : string) a e :
  process_and_store data now a = Raise e -> e = AttributeError.
Proof.
  unfold process_and_store.
  destruct data; try (intros [= <-]; reflexivity).
  rewrite process_data_dict. cbn [mbind result_bind].
  destruct (validate_data _); discriminate.
Qed.

(** A request that yields a true value was answered with status 200, it
    is counted as a success, and nothing is logged. *)
Lemma make_api_request_truthy r a :
  truthy (make_api_request r a).2 = true ->
  (∃ body, r = HttpResponse 200 body) ∧
  make_api_request r a
  = (set_successful_requests
       (set_total_requests a (total_requests a + 1))
       (successful_requests a + 1), [], (make_api_request r a).2).
Proof.
  unfold make_api_request. destruct r as [e|status body];
    [discriminate|].
  destruct (Z.eqb_spec status 200) as [->|Hne]; [|discriminate].
  destruct (_ ≫= _) as [market|e]; [|discriminate].
  intros _. split; [exists body|]; reflexivity.
Qed.

Lemma make_api_request_any_agent r a a' :
  (make_api_request r a).2 = (make_api_request r a').2.
Proof.
  unfold make_api_request. destruct r as [e|status body]; [reflexivity|].
  destruct (status =? 200); [|reflexivity].
  destruct (_ ≫= _); reflexivity.
Qed.

(** What [collect_batch] returns: the agent after the request, whose
    counters are those of [make_api_request] on the agent before. *)
Lemma collect_batch_request r a :
  ∃ a1 log,
    delay_multiplier a1 ∈ [delay_multiplier a;
                             fmul (delay_multiplier a) f2_0] ∧
    a1 = set_delay_multiplier a (delay_multiplier a1) ∧
    collect_batch r a
    = Ok ((make_api_request r a1).1.1, log, (make_api_request r a1).2).
Proof.
  destruct (get_success_rate_total a) as [rate Hr].
  rewrite (collect_batch_cases r a rate Hr).
  destruct (flt rate f0_5).
  - eexists (set_delay_multiplier a _), _. cbn.
    split; [|split; reflexivity]. set_solver.
  - exists a. eexists. split; [|split; [|reflexivity]].
    + set_solver.
    + destruct a; reflexivity.
Qed.

(** X2. The storing step of the loop body (lines 65 to 67 of
    [run_collection]) raises exactly when the market returned by the
    request is a true value that is not a dict. The exception is then
    AttributeError, the response had status 200 and has been counted as
    a success, and nothing is stored. *)
Theorem collect_and_store_raises r (now : string) a :
  ((collect_and_store r now a).2 = Raise AttributeError <->
   truthy (make_api_request r a).2 = true ∧
   ∀ d, (make_api_request r a).2 <> PDict d)
  ∧ (∀ e,
       (collect_and_store r now a).2 = Raise e ->
       e = AttributeError ∧
       (∃ body, r = HttpResponse 200 body) ∧
       data_store (collect_and_store r now a).1.1 = data_store a ∧
       total_requests (collect_and_store r now a).1.1
         = total_requests a + 1 ∧
       successful_requests (collect_and_store r now a).1.1
         = successful_requests a + 1 ∧
       failed_requests (collect_and_store r now a).1.1
         = failed_requests a).
Proof.
  unfold collect_and_store.
  destruct (collect_batch_request r a) as (a1 & log & _ & Ha1 & ->).
  rewrite (make_api_request_any_agent r a a1).
  destruct (truthy (make_api_request r a1).2) eqn:Ht.
  - destruct (make_api_request_truthy r a1 Ht) as [Hbody Hreq].
    destruct (process_and_store _ now _) as [[a2 log2]|e'] eqn:E;
      cbn [snd fst].
    + split; [|discriminate]. split; [discriminate|].
      intros [_ Hnd]. exfalso.
      destruct (make_api_request r a1).2 as [| | | | |l|d] eqn:Em;
        try discriminate E.
      exact (Hnd d eq_refl).
    + pose proof (process_and_store_raises _ _ _ _ E) as ->.
      assert (Hnd : ∀ d, (make_api_request r a1).2 <> PDict d).
      { intros d Hd. rewrite Hd in E.
        destruct (process_and_store_dict d now
                    (make_api_request r a1).1.1) as (rec & log' & E').
        rewrite E' in E. discriminate E. }
      split; [split; [intros _; split; [reflexivity | exact Hnd]
                     | reflexivity]|].
      intros e [= <-]. split; [reflexivity|]. split; [exact Hbody|].
      rewrite Hreq. cbn. rewrite Ha1. repeat split.
  - cbn [snd fst]. split; [|discriminate].
    split; [discriminate | intros [H _]; discriminate H].
Qed.

(** A 200 response whose first market is the string "closed". *)
Lemma collect_and_store_raises_witness :
  AttributeError = AttributeError ∧
  (∃ body, text_response = HttpResponse 200 body) ∧
  data_store
    (collect_and_store text_response "t" (init _default_config 0)).1.1
    = data_store (init _default_config 0) ∧
  total_requests
    (collect_and_store text_response "t" (init _default_config 0)).1.1
    = total_requests (init _default_config 0) + 1 ∧
  successful_requests
    (collect_and_store text_response "t" (init _default_config 0)).1.1
    = successful_requests (init _default_config 0) + 1 ∧
  failed_requests
    (collect_and_store text_response "t" (init _default_config 0)).1.1
    = failed_requests (init _default_config 0).
Proof.
  apply (proj2 (collect_and_store_raises text_response "t"
                  (init _default_config 0)) AttributeError).
  reflexivity.
Defined.

End Store.

Section Invariants.

Implicit Types (a : agent) (d : gmap string pyval) (r : http_result).

Lemma process_and_store_cases data (now : string) a a' log :
  process_and_store data now a = Ok (a', log) ->
  a' = a ∨ ∃ record,
    stored_record record ∧
    a' = set_data_store a (data_store a ++ [record]).
Proof.
  unfold process_and_store.
  destruct (process_data data now) as [record|e] eqn:E;
    cbn [mbind result_bind]; [|discriminate].
  destruct (validate_data record) eqn:Hv; intros [= <- _].
  - right. exists record. split; [|reflexivity]. exists data, now.
    split; assumption.
  - left. reflexivity.
Qed.

(** What one operation adds to the data store. *)
Lemma run_op_store (o : op) a :
  data_store (run_op o a) = data_store a
  ∨ ∃ record, stored_record record
              ∧ data_store (run_op o a) = data_store a ++ [record].
Proof.
  destruct o as [|r|r|data now|r now]; cbn [run_op].
  - left. destruct (adjust_strategy a) as [[a' log]|e] eqn:E;
      [exact (adjust_strategy_store _ _ _ E) | reflexivity].
  - left. apply make_api_request_store.
  - left. destruct (collect_batch r a) as [[[a' log] data]|e] eqn:E;
      [exact (collect_batch_store _ _ _ _ _ E) | reflexivity].
  - destruct (process_and_store data now a) as [[a' log]|e] eqn:E;
      [|left; reflexivity].
    destruct (process_and_store_cases _ _ _ _ _ E)
      as [-> | (record & Hrec & ->)]; [left; reflexivity|].
    right. exists record. split; [exact Hrec | reflexivity].
  - unfold collect_and_store.
    destruct (collect_batch r a) as [[[a1 log1] data]|e] eqn:E;
      [|left; reflexivity].
    pose proof (collect_batch_store _ _ _ _ _ E) as H1.
    destruct (truthy data); [|left; exact H1].
    destruct (process_and_store data now a1) as [[a2 log2]|e] eqn:E2;
      [|left; exact H1].
    cbn [fst]. rewrite <- H1.
    destruct (process_and_store_cases _ _ _ _ _ E2)
      as [-> | (record & Hrec & ->)]; [left; reflexivity|].
    right. exists record. split; [exact Hrec | reflexivity].
Qed.

Lemma run_ops_store (os : list op) a :
  ∃ new,
    data_store (run_ops os a) = data_store a ++ new ∧
    Forall stored_record new.
Proof.
  revert a. induction os as [|o os IH]; intros a.
  - exists []. rewrite app_nil_r. split; [reflexivity | constructor].
  - destruct (IH (run_op o a)) as (new & Hnew & Hall).
    change (run_ops (o :: os) a) with (run_ops os (run_op o a)).
    destruct (run_op_store o a) as [Hs | (record & Hrec & Hs)];
      rewrite Hs in Hnew.
    + exists new. split; [exact Hnew | exact Hall].
    + exists (record :: new). rewrite Hnew, <- app_assoc.
      split; [reflexivity | constructor; assumption].
Qed.

(** X3. The data store is append-only: whatever operations run, in
    whatever order, the records already stored stay where they are, at
    most one record is added per operation, and every added record was
    built by [process_data] and accepted by [validate_data]. *)
Theorem data_store_append_only (os : list op) a :
  ∃ new,
    data_store (run_ops os a) = data_store a ++ new ∧
    (length new <= length os)%nat ∧
    Forall stored_record new.
Proof.
  revert a. induction os as [|o os IH]; intros a.
  - exists []. rewrite app_nil_r.
    split; [reflexivity|]. split; [cbn; lia | constructor].
  - destruct (IH (run_op o a)) as (new & Hnew & Hlen & Hall).
    change (run_ops (o :: os) a) with (run_ops os (run_op o a)).
    destruct (run_op_store o a) as [Hs | (record & Hrec & Hs)];
      rewrite Hs in Hnew.
    + exists new.
      split; [exact Hnew|]. split; [cbn; lia | exact Hall].
    + exists (record :: new). rewrite Hnew, <- app_assoc.
      split; [reflexivity|].
      split; [cbn; lia | constructor; assumption].
Qed.

(** Every record built by [process_data] has the same seven keys. *)
Lemma process_data_keys data (now : string) record :
  process_data data now = Ok record -> dom record = record_keys.
Proof.
  destruct data; try discriminate. rewrite process_data_dict.
  intros [= <-]. rewrite !dom_insert_L, dom_empty_L.
  unfold record_keys. cbn [list_to_set foldr]. reflexivity.
Qed.

(** X4. From a fresh agent, after any sequence of operations, every
    record in the data store has exactly the seven keys ticker, title,
    category, status, last_price, volume and collection_timestamp, and
    holds a ticker, a title and a category that are true and not
    'N/A'. *)
Theorem stored_records_shape cfg now (os : list op) :
  Forall (λ record,
            dom record = record_keys ∧
            filled (get record "ticker") = true ∧
            filled (get record "title") = true ∧
            filled (get record "category") = true)
         (data_store (run_ops os (init cfg now))).
Proof.
  destruct (run_ops_store os (init cfg now)) as (new & -> & Hall).
  cbn [init data_store app].
  eapply Forall_impl; [exact Hall|].
  intros record (data & stamp & Hp & Hv). split.
  - exact (process_data_keys _ _ _ Hp).
  - unfold validate_data, required_fields in Hv. cbn [forallb] in Hv.
    rewrite !negb_orb, !negb_involutive in Hv.
    rewrite !andb_true_iff in Hv. unfold filled.
    rewrite !andb_true_iff. tauto.
Qed.

Lemma counted_request r a :
  counted a -> counted (make_api_request r a).1.1.
Proof.
  unfold counted. intros H.
  destruct (make_api_request_counts r a)
    as [Ht [[Hs Hf] | [[Hs Hf] | (Hs & Hf & _)]]];
    rewrite Ht, Hs, Hf; lia.
Qed.

Lemma counted_same a a' :
  total_requests a' = total_requests a ->
  successful_requests a' = successful_requests a ->
  failed_requests a' = failed_requests a ->
  counted a -> counted a'.
Proof. unfold counted. intros -> -> ->. tauto. Qed.

Lemma counted_collect_batch r a a' log data :
  collect_batch r a = Ok (a', log, data) -> counted a -> counted a'.
Proof.
  destruct (collect_batch_request r a) as (a1 & log1 & _ & Ha1 & ->).
  intros [= <- _ _] H. apply counted_request.
  rewrite Ha1. exact H.
Qed.

Lemma counted_process_and_store data (now : string) a a' log :
  process_and_store data now a = Ok (a', log) -> counted a -> counted a'.
Proof.
  intros E H. destruct (process_and_store_cases _ _ _ _ _ E)
    as [-> | (record & _ & ->)]; exact H.
Qed.

Lemma counted_run_op (o : op) a : counted a -> counted (run_op o a).
Proof.
  intros H. destruct o as [|r|r|data now|r now]; cbn [run_op].
  - destruct (get_success_rate_total a) as [rate Hr].
    rewrite (adjust_strategy_cases a rate Hr).
    destruct (flt rate f0_5); [|destruct (flt f0_9 rate)]; exact H.
  - apply counted_request, H.
  - destruct (collect_batch r a) as [[[a' log] data]|e] eqn:E; [|exact H].
    exact (counted_collect_batch _ _ _ _ _ E H).
  - destruct (process_and_store data now a) as [[a' log]|e] eqn:E;
      [|exact H].
    exact (counted_process_and_store _ _ _ _ _ E H).
  - unfold collect_and_store.
    destruct (collect_batch r a) as [[[a1 log1] data]|e] eqn:E; [|exact H].
    pose proof (counted_collect_batch _ _ _ _ _ E H) as H1.
    destruct (truthy data); [|exact H1].
    destruct (process_and_store data now a1) as [[a2 log2]|e] eqn:E2;
      [|exact H1].
    exact (counted_process_and_store _ _ _ _ _ E2 H1).
Qed.

(** X5. From a fresh agent, after any sequence of operations, the
    request counters stay consistent: successful_requests and
    failed_requests are each between 0 and total_requests, and
    total_requests is at most their sum (every request counted has at
    least one outcome counted). *)
Theorem counters_consistent cfg now (os : list op) :
  0 <= successful_requests (run_ops os (init cfg now))
    <= total_requests (run_ops os (init cfg now)) ∧
  0 <= failed_requests (run_ops os (init cfg now))
    <= total_requests (run_ops os (init cfg now)) ∧
  total_requests (run_ops os (init cfg now))
    <= successful_requests (run_ops os (init cfg now))
       + failed_requests (run_ops os (init cfg now)).
Proof.
  change (counted (run_ops os (init cfg now))).
  assert (H0 : counted (init cfg now)) by (unfold counted; cbn; lia).
  revert H0. generalize (init cfg now).
  induction os as [|o os IH]; intros a Ha; [exact Ha|].
  apply (IH (run_op o a)), counted_run_op, Ha.
Qed.

End Invariants.

(** ** The collection run *)

Section Run.

Implicit Types (a : agent) (r : http_result) (sleep : float -> result ())
  (ticks : nat -> tick).

Lemma assess_data_quality_total a : ∃ q, assess_data_quality a = Ok q.
Proof.
  unfold assess_data_quality. destruct (data_store a) as [|item rest] eqn:E.
  - eexists; reflexivity.
  - destruct (check_completeness_total a) as [c ->].
    destruct (check_accuracy_total a) as [acc ->].
    destruct (check_consistency_total a) as [k ->].
    cbn [mbind result_bind length].
    change (Z.of_nat 4) with 4.
    destruct (num_truediv_4 (Py.sum [c; acc; k; NFloat f1_0])) as [q ->].
    eexists; reflexivity.
Qed.

Lemma assess_performance_total a : ∃ log, assess_performance a = Ok log.
Proof.
  unfold assess_performance.
  destruct (assess_data_quality_total a) as [q ->].
  destruct (get_success_rate_total a) as [rate ->].
  eexists; reflexivity.
Qed.

(** The storing step keeps the configuration and the start time. *)
Lemma collect_and_store_config r (now : string) a :
  config (collect_and_store r now a).1.1 = config a.
Proof.
  unfold collect_and_store.
  destruct (collect_batch_request r a) as (a1 & log & _ & Ha1 & ->).
  assert (Hc : config (make_api_request r a1).1.1 = config a).
  { rewrite Ha1. unfold make_api_request.
    destruct r as [e|status body]; [reflexivity|].
    destruct (status =? 200); [|reflexivity].
    destruct (_ ≫= _); reflexivity. }
  destruct (truthy _); [|exact Hc].
  destruct (process_and_store _ now _) as [[a2 log2]|e] eqn:E; [|exact Hc].
  cbn [fst]. rewrite <- Hc.
  destruct (process_and_store_cases _ _ _ _ _ E)
    as [-> | (record & _ & ->)]; reflexivity.
Qed.

Lemma collection_loop_config sleep ticks (fuel : nat) :
  ∀ i a, config (agent_now (collection_loop sleep ticks fuel i a))
         = config a.
Proof.
  induction fuel as [|fuel IH]; intros i a; [reflexivity|].
  cbn [collection_loop].
  destruct (collection_complete a) as [[|]|e]; try reflexivity.
  pose proof (collect_and_store_config (response (ticks i))
                (stamp (ticks i)) a) as Hc.
  destruct (collect_and_store _ _ a) as [[a1 log1] [u|e]];
    cbn [fst] in Hc; [|exact Hc].
  destruct (assess_performance a1) as [log2|e]; [|exact Hc].
  destruct (respectful_delay sleep _ a1) as [d [u'|e]]; [|exact Hc].
  cbn [agent_now]. rewrite IH. exact Hc.
Qed.

(** X6. When the loop of [run_collection] ends without an exception,
    [collection_complete] holds of the agent it ends with: for a
    configuration whose num_markets is an int [n] (5 when absent), the
    data store then holds at least [n] records. *)
Theorem collection_loop_complete sleep ticks (fuel i : nat) a :
  ended (collection_loop sleep ticks fuel i a) = Some (Ok ()) ->
  collection_complete (agent_now (collection_loop sleep ticks fuel i a))
    = Ok true ∧
  ∀ n, get_default (config a) "num_markets" (PInt 5) = PInt n ->
       n <= Z.of_nat (length (data_store
              (agent_now (collection_loop sleep ticks fuel i a)))).
Proof.
  intros Hend.
  assert (Hc : collection_complete
                 (agent_now (collection_loop sleep ticks fuel i a))
               = Ok true).
  { revert i a Hend. induction fuel as [|fuel IH]; intros i a;
      [discriminate|].
    cbn [collection_loop].
    destruct (collection_complete a) as [[|]|e] eqn:E;
      [intros _; exact E | | discriminate].
    destruct (collect_and_store _ _ a) as [[a1 log1] [u|e]];
      [|discriminate].
    destruct (assess_performance a1) as [log2|e]; [|discriminate].
    destruct (respectful_delay sleep _ a1) as [d [u'|e]]; [|discriminate].
    cbn [ended agent_now]. apply IH. }
  split; [exact Hc|]. intros n Hn.
  unfold collection_complete in Hc.
  rewrite collection_loop_config, Hn in Hc.
  cbn [int_ge] in Hc. injection Hc as Hc. lia.
Qed.

(** With the default configuration and an API that always answers with
    a storable market, the loop ends at five records. *)
Lemma collection_loop_complete_witness :
  collection_complete
    (agent_now (collection_loop sleep_returns rain_ticks 10 0
                  (init _default_config 0))) = Ok true ∧
  ∀ n, get_default (config (init _default_config 0)) "num_markets"
         (PInt 5) = PInt n ->
       n <= Z.of_nat (length (data_store
              (agent_now (collection_loop sleep_returns rain_ticks 10 0
                            (init _default_config 0))))).
Proof.
  apply (collection_loop_complete sleep_returns rain_ticks 10 0
           (init _default_config 0)).
  vm_compute. reflexivity.
Defined.

(** A good response makes [make_api_request] return its first market,
    counted as a success. *)
Lemma make_api_request_good r :
  good_response r ->
  ∃ d, storable d = true ∧
    ∀ a, make_api_request r a
         = (set_successful_requests
              (set_total_requests a (total_requests a + 1))
              (successful_requests a + 1), [], PDict d).
Proof.
  intros (body & d & rest & -> & Hm & Hs). exists d. split; [exact Hs|].
  intros a. unfold make_api_request. cbn [Z.eqb Pos.eqb json].
  cbn [mbind result_bind val_get_default]. unfold get_default.
  rewrite Hm. reflexivity.
Qed.

(** One iteration of the storing step on a good response. *)
Lemma collect_and_store_good r (now : string) a :
  good_response r ->
  ∃ a' log record,
    collect_and_store r now a = (a', log, Ok ()) ∧
    data_store a' = data_store a ++ [record] ∧
    total_requests a' = total_requests a + 1 ∧
    successful_requests a' = successful_requests a + 1 ∧
    failed_requests a' = failed_requests a.
Proof.
  intros Hgood. destruct (make_api_request_good r Hgood) as (d & Hs & Hreq).
  unfold collect_and_store.
  destruct (collect_batch_request r a) as (a1 & log & _ & Ha1 & ->).
  rewrite (Hreq a1). cbn [fst snd truthy].
  destruct (process_and_store_dict d now
              (set_successful_requests
                 (set_total_requests a1 (total_requests a1 + 1))
                 (successful_requests a1 + 1)))
    as (record & log' & ->).
  rewrite Hs.
  destruct (decide (d = ∅)) as [-> | Hne]; [discriminate Hs|].
  rewrite (bool_decide_eq_false_2 _ Hne). cbn [negb].
  eexists _, _, record. split; [reflexivity|]. rewrite Ha1. repeat split.
Qed.

(** With a base delay that is a number, [respectful_delay] asks
    [time.sleep] for one duration, and returns when [time.sleep] does. *)
Lemma respectful_delay_returns (j : float) a :
  delay_number (get_default (config a) "base_delay" (PFloat f1_0)) = true ->
  ∃ d, respectful_delay sleep_returns j a = ([d], Ok ()) ∧
       ∀ sleep, sleep d = Ok () -> respectful_delay sleep j a = ([d], Ok ()).
Proof.
  intros Hnum. unfold respectful_delay.
  destruct (get_default (config a) "base_delay" (PFloat f1_0));
    try discriminate Hnum; cbn [val_mul_float delay_number] in *;
    rewrite ?Hnum; cbn [sleep_returns];
    (eexists; split; [reflexivity|]); intros sleep ->; reflexivity.
Qed.

(** The loop takes of [time.sleep] only whether it returns on the
    durations asked of it: when it returns on each of those that a run
    with an always returning [time.sleep] asks for, the run is that
    one. *)
Lemma collection_loop_sleep sleep ticks (fuel : nat) :
  ∀ i a,
    Forall (λ d, sleep d = Ok ())
      (slept (collection_loop sleep_returns ticks fuel i a)) ->
    collection_loop sleep ticks fuel i a
    = collection_loop sleep_returns ticks fuel i a.
Proof.
  induction fuel as [|fuel IH]; intros i a; [reflexivity|].
  cbn [collection_loop].
  destruct (collection_complete a) as [[|]|e]; try reflexivity.
  destruct (collect_and_store _ _ a) as [[a1 log1] [u|e]]; [|reflexivity].
  destruct (assess_performance a1) as [log2|e]; [|reflexivity].
  unfold respectful_delay.
  destruct (val_mul_float _ _) as [d|e]; [|reflexivity].
  cbn [sleep_returns slept app]. intros Hall.
  apply Forall_cons in Hall as [-> Hall]. rewrite (IH _ _ Hall).
  reflexivity.
Qed.

(** The loop on good responses, with a [time.sleep] that returns. *)
Lemma collection_loop_good_returns ticks (n : Z) :
  (∀ j, good_response (response (ticks j))) ->
  ∀ (missing fuel i : nat) a,
    get_default (config a) "num_markets" (PInt 5) = PInt n ->
    delay_number (get_default (config a) "base_delay" (PFloat f1_0))
      = true ->
    missing = Z.to_nat (n - Z.of_nat (length (data_store a))) ->
    (missing < fuel)%nat ->
    let k := collection_loop sleep_returns ticks fuel i a in
    ended k = Some (Ok ()) ∧
    iterations k = (i + missing)%nat ∧
    length (slept k) = missing ∧
    length (data_store (agent_now k))
      = (length (data_store a) + missing)%nat ∧
    total_requests (agent_now k) = total_requests a + Z.of_nat missing ∧
    successful_requests (agent_now k)
      = successful_requests a + Z.of_nat missing ∧
    failed_requests (agent_now k) = failed_requests a.
Proof.
  intros Hgood. induction missing as [|missing IH];
    intros fuel i a Hn Hnum Hmiss Hfuel;
    (destruct fuel as [|fuel]; [lia|]); cbn [collection_loop];
    unfold collection_complete; rewrite Hn; cbn [int_ge].
  - destruct (Z.geb_spec (Z.of_nat (length (data_store a))) n); [|lia].
    cbn. repeat split; lia.
  - destruct (Z.geb_spec (Z.of_nat (length (data_store a))) n); [lia|].
    destruct (collect_and_store_good (response (ticks i))
                (stamp (ticks i)) a (Hgood i))
      as (a1 & log1 & record & E & Hs & Ht & Hsu & Hf).
    pose proof (collect_and_store_config (response (ticks i))
                  (stamp (ticks i)) a) as Hc.
    rewrite E in Hc |- *. cbn [fst] in Hc.
    destruct (assess_performance_total a1) as [log2 ->].
    destruct (respectful_delay_returns (jitter (ticks i)) a1)
      as (d & -> & _); [rewrite Hc; exact Hnum|].
    cbn [ended iterations agent_now slept].
    assert (Hlen : length (data_store a1) = S (length (data_store a)))
      by (rewrite Hs, length_app; cbn; lia).
    destruct (IH fuel (S i) a1) as (H1 & H2 & H3 & H4 & H5 & H6 & H7);
      [rewrite Hc; exact Hn | rewrite Hc; exact Hnum | lia | lia |].
    split; [exact H1|]. split; [lia|].
    split; [cbn [app length]; lia|]. repeat split; lia.
Qed.

(** X7. When the configuration asks for [n] markets, the base delay is
    a number, every response carries a storable market and [time.sleep]
    returns on the durations asked of it, the loop ends without an
    exception after exactly as many iterations as records were missing:
    each iteration makes one request, counts it as a success, stores one
    record and sleeps once. *)
Theorem collection_loop_good sleep ticks (n : Z) (missing fuel i : nat) a :
  (∀ j, good_response (response (ticks j))) ->
  get_default (config a) "num_markets" (PInt 5) = PInt n ->
  delay_number (get_default (config a) "base_delay" (PFloat f1_0))
    = true ->
  missing = Z.to_nat (n - Z.of_nat (length (data_store a))) ->
  (missing < fuel)%nat ->
  Forall (λ d, sleep d = Ok ())
    (slept (collection_loop sleep_returns ticks fuel i a)) ->
  ended (collection_loop sleep ticks fuel i a) = Some (Ok ()) ∧
  iterations (collection_loop sleep ticks fuel i a) = (i + missing)%nat ∧
  length (slept (collection_loop sleep ticks fuel i a)) = missing ∧
  length (data_store (agent_now (collection_loop sleep ticks fuel i a)))
    = (length (data_store a) + missing)%nat ∧
  total_requests (agent_now (collection_loop sleep ticks fuel i a))
    = total_requests a + Z.of_nat missing ∧
  successful_requests (agent_now (collection_loop sleep ticks fuel i a))
    = successful_requests a + Z.of_nat missing ∧
  failed_requests (agent_now (collection_loop sleep ticks fuel i a))
    = failed_requests a.
Proof.
  intros Hgood Hn Hnum Hmiss Hfuel Hsleep.
  rewrite (collection_loop_sleep sleep ticks fuel i a Hsleep).
  exact (collection_loop_good_returns ticks n Hgood missing fuel i a
           Hn Hnum Hmiss Hfuel).
Qed.

(** The durations that the two sample runs ask of [time.sleep]. *)
Lemma rain_run_slept :
  slept (collection_loop sleep_returns rain_ticks 8 0
           (init _default_config 0))
  = [f1_0; f1_0; f1_0; f1_0; f1_0].
Proof. vm_compute. reflexivity. Qed.

Lemma timeout_run_slept :
  slept (collection_loop sleep_returns timeout_ticks 3 0
           (init _default_config 0))
  = [f1_0; f2_0; float_of_int 4].
Proof. vm_compute. reflexivity. Qed.

(** The default configuration asks for five markets and a base delay of
    one second: five iterations, each followed by a sleep of one
    second. *)
Lemma collection_loop_good_witness :
  ended (collection_loop sleep_within_the_hour rain_ticks 8 0
           (init _default_config 0)) = Some (Ok ()) ∧
  iterations (collection_loop sleep_within_the_hour rain_ticks 8 0
                (init _default_config 0)) = 5%nat ∧
  slept (collection_loop sleep_within_the_hour rain_ticks 8 0
           (init _default_config 0)) = [f1_0; f1_0; f1_0; f1_0; f1_0] ∧
  length (data_store (agent_now (collection_loop sleep_within_the_hour
                                   rain_ticks 8 0 (init _default_config 0))))
    = 5%nat ∧
  total_requests (agent_now (collection_loop sleep_within_the_hour
                               rain_ticks 8 0 (init _default_config 0)))
    = 5 ∧
  successful_requests (agent_now (collection_loop sleep_within_the_hour
                                    rain_ticks 8 0 (init _default_config 0)))
    = 5 ∧
  failed_requests (agent_now (collection_loop sleep_within_the_hour
                                rain_ticks 8 0 (init _default_config 0)))
    = 0.
Proof.
  destruct (collection_loop_good sleep_within_the_hour rain_ticks 5 5 8 0
              (init _default_config 0))
    as (H1 & H2 & H3 & H4 & H5 & H6 & H7).
  - intros j. eexists _, rain_market, []. repeat split.
  - reflexivity.
  - reflexivity.
  - reflexivity.
  - lia.
  - rewrite rain_run_slept. repeat constructor.
  - split; [exact H1|]. split; [exact H2|].
    split; [vm_compute; reflexivity|].
    split; [exact H4|]. split; [exact H5|]. split; [exact H6 | exact H7].
Defined.

(** The loop on responses without a market, with a [time.sleep] that
    returns. *)
Lemma collection_loop_keeps_trying_returns ticks (n : Z) :
  (∀ j a, truthy (make_api_request (response (ticks j)) a).2 = false) ->
  ∀ (fuel i : nat) a,
    get_default (config a) "num_markets" (PInt 5) = PInt n ->
    delay_number (get_default (config a) "base_delay" (PFloat f1_0))
      = true ->
    Z.of_nat (length (data_store a)) < n ->
    let k := collection_loop sleep_returns ticks fuel i a in
    ended k = None ∧
    iterations k = (i + fuel)%nat ∧
    length (slept k) = fuel ∧
    data_store (agent_now k) = data_store a ∧
    total_requests (agent_now k) = total_requests a + Z.of_nat fuel.
Proof.
  intros Hfail. induction fuel as [|fuel IH];
    intros i a Hn Hnum Hlt; cbn [collection_loop].
  - cbn. repeat split; lia.
  - unfold collection_complete. rewrite Hn. cbn [int_ge].
    destruct (Z.geb_spec (Z.of_nat (length (data_store a))) n); [lia|].
    pose proof (collect_and_store_config (response (ticks i))
                  (stamp (ticks i)) a) as Hc.
    assert (E : ∃ a1 log1,
               collect_and_store (response (ticks i)) (stamp (ticks i)) a
               = (a1, log1, Ok ()) ∧
               data_store a1 = data_store a ∧
               total_requests a1 = total_requests a + 1).
    { unfold collect_and_store.
      destruct (collect_batch_request (response (ticks i)) a)
        as (a1 & log & _ & Ha1 & ->).
      rewrite (Hfail i a1). eexists _, _. split; [reflexivity|].
      rewrite make_api_request_store.
      destruct (make_api_request_counts (response (ticks i)) a1)
        as [Ht _].
      rewrite Ht, Ha1. split; reflexivity. }
    destruct E as (a1 & log1 & E & Hs & Ht).
    rewrite E in Hc |- *. cbn [fst] in Hc.
    destruct (assess_performance_total a1) as [log2 ->].
    destruct (respectful_delay_returns (jitter (ticks i)) a1)
      as (d & -> & _); [rewrite Hc; exact Hnum|].
    cbn [ended iterations agent_now slept].
    destruct (IH (S i) a1) as (H1 & H2 & H3 & H4 & H5);
      [rewrite Hc; exact Hn | rewrite Hc; exact Hnum
      | rewrite Hs; exact Hlt |].
    split; [exact H1|]. split; [lia|]. split; [cbn [app length]; lia|].
    split; [congruence | lia].
Qed.

(** X8. While no request yields a market (it raises, or the status is
    not 200, or there is no first market), the loop does not end of
    itself: with a numeric base delay, fewer records than the [n] asked
    for and a [time.sleep] that returns on the durations asked of it,
    after any number of iterations the loop is still running, has made
    one request and slept once per iteration and has stored nothing. The
    loop has no bound of its own on the attempts. *)
Theorem collection_loop_keeps_trying sleep ticks (n : Z) (fuel i : nat) a :
  (∀ j a, truthy (make_api_request (response (ticks j)) a).2 = false) ->
  get_default (config a) "num_markets" (PInt 5) = PInt n ->
  delay_number (get_default (config a) "base_delay" (PFloat f1_0))
    = true ->
  Z.of_nat (length (data_store a)) < n ->
  Forall (λ d, sleep d = Ok ())
    (slept (collection_loop sleep_returns ticks fuel i a)) ->
  ended (collection_loop sleep ticks fuel i a) = None ∧
  iterations (collection_loop sleep ticks fuel i a) = (i + fuel)%nat ∧
  length (slept (collection_loop sleep ticks fuel i a)) = fuel ∧
  data_store (agent_now (collection_loop sleep ticks fuel i a))
    = data_store a ∧
  total_requests (agent_now (collection_loop sleep ticks fuel i a))
    = total_requests a + Z.of_nat fuel.
Proof.
  intros Hfail Hn Hnum Hlt Hsleep.
  rewrite (collection_loop_sleep sleep ticks fuel i a Hsleep).
  exact (collection_loop_keeps_trying_returns ticks n Hfail fuel i a
           Hn Hnum Hlt).
Qed.

(** An API that times out on every request: after three iterations the
    loop is still running, has made three requests and has slept one,
    two and four seconds. *)
Lemma collection_loop_keeps_trying_witness :
  ended (collection_loop sleep_within_the_hour timeout_ticks 3 0
           (init _default_config 0)) = None ∧
  iterations (collection_loop sleep_within_the_hour timeout_ticks 3 0
                (init _default_config 0)) = 3%nat ∧
  slept (collection_loop sleep_within_the_hour timeout_ticks 3 0
           (init _default_config 0))
    = [f1_0; f2_0; float_of_int 4] ∧
  data_store (agent_now (collection_loop sleep_within_the_hour
                           timeout_ticks 3 0 (init _default_config 0)))
    = [] ∧
  total_requests (agent_now (collection_loop sleep_within_the_hour
                               timeout_ticks 3 0 (init _default_config 0)))
    = 3.
Proof.
  destruct (collection_loop_keeps_trying sleep_within_the_hour
              timeout_ticks 5 3 0 (init _default_config 0))
    as (H1 & H2 & H3 & H4 & H5).
  - reflexivity.
  - reflexivity.
  - reflexivity.
  - reflexivity.
  - rewrite timeout_run_slept. repeat constructor.
  - split; [exact H1|]. split; [exact H2|].
    split; [vm_compute; reflexivity|].
    split; [exact H4 | exact H5].
Defined.

Lemma generate_recommendations_total a :
  ∃ recs, generate_recommendations a = Ok recs.
Proof.
  unfold generate_recommendations.
  destruct (get_success_rate_total a) as [rate ->].
  destruct (assess_data_quality_total a) as [q ->].
  eexists; reflexivity.
Qed.

(** X9. [generate_recommendations] never raises and never returns an
    empty list: it returns 'Collection performed well' alone, or one or
    both of the two advices, the one on the delay first. With an empty
    data store the quality score is 0, so 'Add validation steps' is
    always among them. *)
Theorem generate_recommendations_spec a :
  ∃ recs,
    generate_recommendations a = Ok recs ∧
    recs ∈ [["Collection performed well"];
            ["Increase delay between requests"];
            ["Add validation steps"];
            ["Increase delay between requests"; "Add validation steps"]] ∧
    (data_store a = [] -> "Add validation steps" ∈ recs).
Proof.
  unfold generate_recommendations.
  destruct (get_success_rate_total a) as [rate ->].
  cbn [mbind result_bind].
  destruct (data_store a) as [|item rest] eqn:E.
  - unfold assess_data_quality. rewrite E. cbn [mbind result_bind].
    change (num_lt_float (NInt 0) f0_7) with true.
    destruct (flt rate f0_8); eexists; (split; [reflexivity|]);
      cbn [app]; (split; [|intros _]); set_solver.
  - destruct (assess_data_quality_total a) as [q Hq]. rewrite Hq.
    cbn [mbind result_bind].
    destruct (flt rate f0_8), (num_lt_float q f0_7);
      eexists; (split; [reflexivity|]); cbn [app];
      (split; [|discriminate]); set_solver.
Qed.

Lemma final_reports_total (now : Z) (now_iso : string) a :
  ∃ summary quality_report metadata,
    final_reports now now_iso a = Ok (summary, quality_report, metadata).
Proof.
  unfold final_reports.
  rewrite int_truediv_nonzero by discriminate.
  destruct (get_success_rate_total a) as [rate ->].
  destruct (assess_data_quality_total a) as [q ->].
  destruct (check_completeness_total a) as [c ->].
  destruct (check_accuracy_total a) as [acc ->].
  destruct (check_consistency_total a) as [k ->].
  destruct (generate_recommendations_total a) as [recs ->].
  eexists _, _, _. reflexivity.
Qed.

(** X10. Once its loop has ended, with or without an exception,
    [run_collection] generates the final report: on a file system where
    the output directory can be made and the four files opened, it
    writes the four JSON reports, in their order, and returns without an
    exception. An exception that ended the loop is logged as 'Collection
    failed' and goes no further. *)
Theorem run_collection_reports sleep ticks (fs : file_system) (now : Z)
    (now_iso : string) (fuel : nat) a (r : result ()) :
  can_makedirs fs json_outputs = true ->
  Forall (λ path, can_open fs path = true)
    [collected_data_json; collection_summary_json;
     quality_report_json; metadata_json] ->
  ended (collection_loop sleep ticks fuel 0 a) = Some r ->
  ∃ out,
    run_collection sleep ticks fs now now_iso fuel a = Some out ∧
    returned out = Ok () ∧
    final_agent out = agent_now (collection_loop sleep ticks fuel 0 a) ∧
    json_written (run_files out)
    = [collected_data_json; collection_summary_json;
       quality_report_json; metadata_json] ∧
    (∀ e, r = Raise e -> (ERROR, CollectionFailed e) ∈ run_logged out).
Proof.
  intros Hdir Hopen Hend. unfold run_collection. rewrite Hend.
  unfold generate_final_report.
  destruct (final_reports_total now now_iso
              (agent_now (collection_loop sleep ticks fuel 0 a)))
    as (summary & quality_report & metadata & ->).
  unfold save_reports. rewrite Hdir. cbn [dump_all].
  repeat (apply Forall_cons in Hopen as [-> Hopen]).
  eexists. split; [reflexivity|]. cbn [returned final_agent run_files].
  repeat split. intros e ->. cbn [run_logged].
  apply list_elem_of_further, elem_of_app. right.
  apply elem_of_app. left. apply list_elem_of_here.
Qed.

(** A run whose loop is ended by an AttributeError (the first market is
    a string) still writes its four reports. *)
Lemma run_collection_reports_witness :
  ∃ out,
    run_collection sleep_returns
      (λ _, {| response := text_response; stamp := "t"; jitter := f1_0 |})
      all_writable 1000000 "t" 3 (init _default_config 0) = Some out ∧
    returned out = Ok () ∧
    final_agent out
    = agent_now
        (collection_loop sleep_returns
           (λ _, {| response := text_response; stamp := "t";
                    jitter := f1_0 |})
           3 0 (init _default_config 0)) ∧
    json_written (run_files out)
    = [collected_data_json; collection_summary_json;
       quality_report_json; metadata_json] ∧
    (∀ e, (Raise AttributeError : result ()) = Raise e ->
          (ERROR, CollectionFailed e) ∈ run_logged out).
Proof.
  apply (run_collection_reports sleep_returns _ all_writable 1000000 "t" 3
           (init _default_config 0) (Raise AttributeError)).
  - reflexivity.
  - repeat constructor.
  - reflexivity.
Defined.

(** X20. When num_markets in the configuration is not a number (a
    string, a list, null), the first test of the loop condition raises
    TypeError: the loop ends at once, no request is made, nothing is
    slept, and the agent is unchanged. *)
Theorem collection_loop_bad_target sleep ticks (fuel i : nat) a :
  is_int_or_float (get_default (config a) "num_markets" (PInt 5))
    = false ->
  collection_loop sleep ticks (S fuel) i a
  = {| agent_now := a; logged := []; slept := []; iterations := i;
       ended := Some (Raise TypeError) |}.
Proof.
  intros Hbad. cbn [collection_loop]. unfold collection_complete.
  destruct (get_default (config a) "num_markets" (PInt 5));
    try discriminate Hbad; reflexivity.
Qed.

Lemma collection_loop_bad_target_witness :
  collection_loop sleep_returns rain_ticks 4 0 (init text_target_config 0)
  = {| agent_now := init text_target_config 0; logged := []; slept := [];
       iterations := 0; ended := Some (Raise TypeError) |}.
Proof.
  apply (collection_loop_bad_target sleep_returns rain_ticks 3 0
           (init text_target_config 0)).
  reflexivity.
Defined.

End Run.

(** * Further properties of the cat-facts script *)

Import Cases.

Section CatFactsMore.

Implicit Types (net : nat -> http_result) (facts : list pyval).

Lemma fetch_one_quiet (i : nat) (r : http_result) facts :
  quiet r = true ->
  ∃ log, CatFacts.fetch_one i r facts
         = Ok (facts ++ option_list (kept r), log).
Proof.
  destruct r as [e|status [[| | | | | |d]|]]; cbn [quiet];
    try discriminate; cbn [CatFacts.fetch_one kept];
    destruct (status =? 200); cbn [negb orb andb]; try discriminate;
    intros _; cbn [json mbind result_bind val_get val_get_default];
    rewrite ?app_nil_r; try (eexists; reflexivity).
  unfold get_default, get.
  destruct (truthy (default PNone (d !! "fact")));
    rewrite ?app_nil_r; eexists; reflexivity.
Qed.

Lemma fetch_loop_quiet net :
  ∀ (todo i : nat) facts,
    (∀ j, (i <= j < i + todo)%nat -> quiet (net j) = true) ->
    ∃ log,
      CatFacts.fetch_loop net i todo facts
      = (facts ++ omap kept (net <$> seq i todo), log, (i + todo)%nat).
Proof.
  induction todo as [|todo IH]; intros i facts Hq.
  - exists []. cbn. rewrite app_nil_r, Nat.add_0_r. reflexivity.
  - cbn [CatFacts.fetch_loop seq fmap list_fmap omap list_omap].
    destruct (fetch_one_quiet i (net i) facts (Hq i ltac:(lia)))
      as [log1 ->].
    destruct (IH (S i) (facts ++ option_list (kept (net i)))) as [log2 ->];
      [intros j Hj; apply Hq; lia|].
    eexists. rewrite <- app_assoc, Nat.add_succ_r.
    destruct (kept (net i)); reflexivity.
Qed.

(** X11. When none of the first [num_facts] responses makes the loop
    body raise (each has a status other than 200 or a body that is a
    JSON object), [get_cat_facts] makes all its requests and returns, in
    the order of the requests, the true "fact" values of the 200
    responses: a response with another status, without a "fact" or with
    a false one is skipped. *)
Theorem get_cat_facts_quiet (num_facts : Z) net :
  (∀ j, (j < Z.to_nat num_facts)%nat -> quiet (net j) = true) ->
  (CatFacts.get_cat_facts num_facts net).1.1
    = omap kept (net <$> seq 0 (Z.to_nat num_facts)) ∧
  (CatFacts.get_cat_facts num_facts net).2 = Z.to_nat num_facts.
Proof.
  intros Hq. unfold CatFacts.get_cat_facts.
  destruct (fetch_loop_quiet net (Z.to_nat num_facts) 0 [])
    as [log ->]; [intros j Hj; apply Hq; lia|].
  split; reflexivity.
Qed.

(** Every request answered with a fact: three requests, three facts. *)
Lemma get_cat_facts_quiet_witness :
  (CatFacts.get_cat_facts 3 CatFacts.always_a_fact).1.1
    = omap kept (CatFacts.always_a_fact <$> seq 0 (Z.to_nat 3)) ∧
  (CatFacts.get_cat_facts 3 CatFacts.always_a_fact).2 = Z.to_nat 3.
Proof.
  apply (get_cat_facts_quiet 3 CatFacts.always_a_fact).
  intros j _. reflexivity.
Defined.

Lemma fetch_one_keeps (i : nat) (r : http_result) facts facts' log :
  CatFacts.fetch_one i r facts = Ok (facts', log) ->
  facts' = facts ++ option_list (kept r).
Proof.
  intros E. assert (Hq : quiet r = true).
  { destruct r as [e|status [[| | | | | |d]|]]; cbn in E |- *;
      try discriminate E; destruct (status =? 200);
      try reflexivity; discriminate E. }
  destruct (fetch_one_quiet i r facts Hq) as [log' E'].
  rewrite E' in E. injection E as <- _. reflexivity.
Qed.

Lemma fetch_loop_bounds net :
  ∀ (todo i : nat) facts,
    ∃ n kept_upto,
      (i <= n <= i + todo)%nat ∧
      (CatFacts.fetch_loop net i todo facts).2 = n ∧
      (CatFacts.fetch_loop net i todo facts).1.1
      = facts ++ omap kept (net <$> seq i kept_upto) ∧
      (i + kept_upto <= n)%nat.
Proof.
  induction todo as [|todo IH]; intros i facts.
  - exists i, 0%nat. cbn. rewrite app_nil_r.
    split; [lia|]. split; [reflexivity|]. split; [reflexivity | lia].
  - cbn [CatFacts.fetch_loop].
    destruct (CatFacts.fetch_one i (net i) facts) as [[facts' log1]|e]
      eqn:E.
    + pose proof (fetch_one_keeps _ _ _ _ _ E) as ->.
      destruct (IH (S i) (facts ++ option_list (kept (net i))))
        as (n & upto & Hn & Hreq & Hfacts & Hupto).
      destruct (CatFacts.fetch_loop net (S i) todo _) as [[f l] n'].
      cbn [fst snd] in *. subst n'. exists n, (S upto).
      split; [lia|]. split; [reflexivity|].
      rewrite Hfacts, <- app_assoc.
      cbn [seq fmap list_fmap omap list_omap].
      split; [destruct (kept (net i)); reflexivity | lia].
    + exists (S i), 0%nat. cbn. rewrite app_nil_r.
      split; [lia|]. split; [reflexivity|]. split; [reflexivity | lia].
Qed.

(** X12. In every case [get_cat_facts] makes at most [num_facts]
    requests (none when [num_facts] is not positive) and returns at most
    one fact per request made; every fact returned is a true value, the
    "fact" of a 200 response among the requests made. *)
Theorem get_cat_facts_bounds (num_facts : Z) net :
  ((CatFacts.get_cat_facts num_facts net).2 <= Z.to_nat num_facts)%nat ∧
  (length (CatFacts.get_cat_facts num_facts net).1.1
   <= (CatFacts.get_cat_facts num_facts net).2)%nat ∧
  Forall (λ fact,
            truthy fact = true ∧
            ∃ j, (j < (CatFacts.get_cat_facts num_facts net).2)%nat
                 ∧ kept (net j) = Some fact)
         (CatFacts.get_cat_facts num_facts net).1.1.
Proof.
  unfold CatFacts.get_cat_facts.
  destruct (fetch_loop_bounds net (Z.to_nat num_facts) 0 [])
    as (n & upto & Hn & Hreq & Hfacts & Hupto).
  destruct (CatFacts.fetch_loop net 0 (Z.to_nat num_facts) [])
    as [[facts log] n'].
  cbn [fst snd app] in *. subst n' facts. split; [lia|].
  assert (Hlen : ∀ l : list http_result,
             (length (omap kept l) <= length l)%nat).
  { induction l as [|x l IHl]; cbn; [lia|].
    destruct (kept x); cbn; lia. }
  split.
  - pose proof (Hlen (net <$> seq 0 upto)) as H.
    rewrite length_fmap, length_seq in H. lia.
  - apply Forall_forall. intros fact Hin.
    apply list_elem_of_omap in Hin as (r & Hr & Hk).
    apply list_elem_of_fmap in Hr as (j & -> & Hj).
    apply elem_of_seq in Hj. split.
    + destruct (net j) as [e|status [[| | | | | |d]|]];
        try discriminate Hk. cbn in Hk.
      destruct (status =? 200); [|discriminate Hk].
      destruct (truthy (get d "fact")) eqn:Ht; [|discriminate Hk].
      cbn in Hk. injection Hk as <-. exact Ht.
    + exists j. split; [lia | exact Hk].
Qed.

End CatFactsMore.

(** * Further properties of the holidays script *)

Section HolidaysMore.

Implicit Types (net : nat -> http_result) (d : list (string * Z)).

Lemma raise_for_status_ok (status : Z) :
  ¬ (400 <= status < 600) -> Holidays.raise_for_status status = Ok ().
Proof.
  intros H. unfold Holidays.raise_for_status.
  destruct (Z.leb_spec 400 status), (Z.ltb_spec status 600);
    try reflexivity. lia.
Qed.

(** X13. [get_public_holidays] returns the body of the response exactly
    when the request returned, the status is outside 400..599 and the
    body is JSON with a length (a list, an object or a string); it then
    logs the number of holidays. In every other case it returns None. A
    status below 400 other than 200 counts as a success. *)
Theorem get_public_holidays_result (country_code : string) (year : Z)
    (r : http_result) :
  (∀ status v n,
     r = HttpResponse status (Some v) ->
     ¬ (400 <= status < 600) ->
     len v = Ok n ->
     Holidays.get_public_holidays country_code year r
     = (v, [(INFO, Holidays.FetchingHolidays country_code year);
            (INFO, Holidays.RetrievedHolidays n country_code)]))
  ∧ ((Holidays.get_public_holidays country_code year r).1 = PNone
     ∨ ∃ status n,
         r = HttpResponse status
               (Some (Holidays.get_public_holidays country_code year r).1)
         ∧ ¬ (400 <= status < 600)
         ∧ len (Holidays.get_public_holidays country_code year r).1
           = Ok n).
Proof.
  split.
  - intros status v n -> Hst Hlen. unfold Holidays.get_public_holidays.
    rewrite (raise_for_status_ok status Hst).
    cbn [mbind result_bind json]. rewrite Hlen. reflexivity.
  - unfold Holidays.get_public_holidays, Holidays.raise_for_status.
    destruct r as [e|status [v|]]; [left; reflexivity | |].
    + destruct (Z.leb_spec 400 status), (Z.ltb_spec status 600);
        cbn [andb mbind result_bind json];
        try (destruct (len v) as [n|e] eqn:E; cbn [mbind result_bind];
             [right; exists status, n; cbn [fst];
              repeat split; [lia | exact E]
             | left; reflexivity]).
      left. reflexivity.
    + destruct ((400 <=? status) && (status <? 600)); left; reflexivity.
Qed.

(** A 204 response with an empty list as body is returned as it is;
    a body that is the string of the two characters 日本 is returned
    with 2 logged as the number of holidays. *)
Lemma get_public_holidays_result_witness :
  Holidays.get_public_holidays "US" 2024 (HttpResponse 204 (Some (PList [])))
  = (PList [], [(INFO, Holidays.FetchingHolidays "US" 2024);
                (INFO, Holidays.RetrievedHolidays 0 "US")])
  ∧ Holidays.get_public_holidays "JP" 2024
      (HttpResponse 200 (Some (PStr "日本")))
    = (PStr "日本", [(INFO, Holidays.FetchingHolidays "JP" 2024);
                     (INFO, Holidays.RetrievedHolidays 2 "JP")]).
Proof.
  split.
  - apply (proj1 (get_public_holidays_result "US" 2024
                    (HttpResponse 204 (Some (PList [])))) 204 (PList []) 0);
      [reflexivity | lia | reflexivity].
  - apply (proj1 (get_public_holidays_result "JP" 2024
                    (HttpResponse 200 (Some (PStr "日本"))))
             200 (PStr "日本") 2);
      [reflexivity | lia | reflexivity].
Defined.

(** X14. [dict_set], the assignment [d[k] = v] on the dict of counts,
    is the map update: looking up any key afterwards gives [v] for [k]
    and the former value for the others. A key already present keeps its
    place, a new key comes last, and no key is duplicated. *)
Theorem dict_set_spec (k : string) (v : Z) d :
  (list_to_map (Holidays.dict_set k v d) : gmap string Z)
    = <[k := v]> (list_to_map d) ∧
  (Holidays.dict_set k v d).*1
    = (if decide (k ∈ d.*1) then d.*1 else d.*1 ++ [k]) ∧
  (NoDup d.*1 -> NoDup (Holidays.dict_set k v d).*1).
Proof.
  assert (Hkeys : (Holidays.dict_set k v d).*1
                  = (if decide (k ∈ d.*1) then d.*1 else d.*1 ++ [k])).
  { induction d as [|[k' v'] d IH]; [reflexivity|].
    cbn [Holidays.dict_set fmap list_fmap fst].
    destruct (String.eqb_spec k' k) as [->|Hne].
    - rewrite decide_True by (left). reflexivity.
    - cbn [fmap list_fmap fst]. change (list_fmap _ _ fst ?l) with (l.*1).
      rewrite IH. destruct (decide (k ∈ d.*1)) as [Hin|Hnin].
      + rewrite decide_True by (right; exact Hin). reflexivity.
      + rewrite decide_False; [reflexivity|].
        intros Hin. apply elem_of_cons in Hin as [->|Hin]; tauto. }
  split; [|split; [exact Hkeys|]].
  - clear Hkeys. induction d as [|[k' v'] d IH]; [reflexivity|].
    cbn [Holidays.dict_set]. destruct (String.eqb_spec k' k) as [->|Hne].
    + cbn [list_to_map foldr]. rewrite insert_insert_eq. reflexivity.
    + cbn [list_to_map foldr] in IH |- *.
      change (foldr _ ∅ ?l) with (list_to_map l : gmap string Z) in *.
      rewrite IH. apply insert_insert_ne. exact Hne.
  - intros Hnd. rewrite Hkeys. destruct (decide (k ∈ d.*1)); [exact Hnd|].
    apply NoDup_app. split; [exact Hnd|]. split.
    + intros x Hx Hx'. apply list_elem_of_singleton in Hx'. subst. tauto.
    + apply NoDup_singleton.
Qed.

(** The largest count met from [best] on is no smaller than [best]'s,
    and it stands in the list after strictly smaller counts only. *)
Lemma max_from_first (rest : list (string * Z)) :
  ∀ best,
    best.2 <= (Holidays.max_from best rest).2 ∧
    ∃ before after,
      best :: rest = before ++ Holidays.max_from best rest :: after ∧
      Forall (λ x, x.2 < (Holidays.max_from best rest).2) before ∧
      Forall (λ x, x.2 <= (Holidays.max_from best rest).2) after.
Proof.
  induction rest as [|kv rest IH]; intros best; cbn [Holidays.max_from].
  - split; [lia|]. exists [], [].
    split; [reflexivity|]. split; constructor.
  - destruct (Z.gtb_spec kv.2 best.2) as [Hgt|Hle].
    + destruct (IH kv) as (Hge & before & after & Heq & Hb & Ha).
      split; [lia|]. exists (best :: before), after.
      split; [cbn [app]; f_equal; exact Heq|].
      split; [constructor; [lia | exact Hb] | exact Ha].
    + destruct (IH best) as (Hge & before & after & Heq & Hb & Ha).
      split; [exact Hge|]. destruct before as [|b before].
      * injection Heq as Hm Hrest. exists [], (kv :: after).
        split; [cbn [app]; rewrite <- Hm; do 2 f_equal; exact Hrest|].
        split; [constructor|]. constructor; [lia | exact Ha].
      * injection Heq as Hm Hrest. subst b.
        exists (best :: kv :: before), after.
        apply Forall_cons in Hb as [Hb1 Hb].
        split; [cbn [app]; do 2 f_equal; exact Hrest|].
        split; [|exact Ha].
        constructor; [exact Hb1|]. constructor; [lia | exact Hb].
Qed.

Lemma min_from_first (rest : list (string * Z)) :
  ∀ best,
    (Holidays.min_from best rest).2 <= best.2 ∧
    ∃ before after,
      best :: rest = before ++ Holidays.min_from best rest :: after ∧
      Forall (λ x, (Holidays.min_from best rest).2 < x.2) before ∧
      Forall (λ x, (Holidays.min_from best rest).2 <= x.2) after.
Proof.
  induction rest as [|kv rest IH]; intros best; cbn [Holidays.min_from].
  - split; [lia|]. exists [], [].
    split; [reflexivity|]. split; constructor.
  - destruct (Z.ltb_spec kv.2 best.2) as [Hlt|Hle].
    + destruct (IH kv) as (Hge & before & after & Heq & Hb & Ha).
      split; [lia|]. exists (best :: before), after.
      split; [cbn [app]; f_equal; exact Heq|].
      split; [constructor; [lia | exact Hb] | exact Ha].
    + destruct (IH best) as (Hge & before & after & Heq & Hb & Ha).
      split; [exact Hge|]. destruct before as [|b before].
      * injection Heq as Hm Hrest. exists [], (kv :: after).
        split; [cbn [app]; rewrite <- Hm; do 2 f_equal; exact Hrest|].
        split; [constructor|]. constructor; [lia | exact Ha].
      * injection Heq as Hm Hrest. subst b.
        exists (best :: kv :: before), after.
        apply Forall_cons in Hb as [Hb1 Hb].
        split; [cbn [app]; do 2 f_equal; exact Hrest|].
        split; [|exact Ha].
        constructor; [exact Hb1|]. constructor; [lia | exact Hb].
Qed.

(** X15. For a non-empty dict of counts, the statistics of
    [create_holiday_summary] name as most_holidays the first country, in
    insertion order, whose count is the largest (every country before it
    has a strictly smaller count, every one after it a count no larger),
    and as least_holidays the first country whose count is the
    smallest. *)
Theorem statistics_first_extremes (kv : string * Z)
    (rest : list (string * Z)) :
  ∃ most least,
    Holidays.statistics (kv :: rest)
    = {[ "most_holidays" := Holidays.count_entry most;
         "least_holidays" := Holidays.count_entry least ]} ∧
    (∃ before after,
       kv :: rest = before ++ most :: after ∧
       Forall (λ x, x.2 < most.2) before ∧
       Forall (λ x, x.2 <= most.2) after) ∧
    (∃ before after,
       kv :: rest = before ++ least :: after ∧
       Forall (λ x, least.2 < x.2) before ∧
       Forall (λ x, least.2 <= x.2) after).
Proof.
  exists (Holidays.max_from kv rest), (Holidays.min_from kv rest).
  split; [reflexivity|]. split.
  - exact (proj2 (max_from_first rest kv)).
  - exact (proj2 (min_from_first rest kv)).
Qed.












End HolidaysMore.

(** * Further properties of the reports *)

Section Reports.

Implicit Types (fs : file_system).

(** [dump_all] writes the files in order up to the first that cannot
    be opened. *)
Lemma dump_all_prefix fs (files : list (string * pyval)) :
  json_written (dump_all fs files).1 `prefix_of` files.*1 ∧
  Forall (λ path, can_open fs path = true)
         (json_written (dump_all fs files).1) ∧
  ((dump_all fs files).2 = Ok ()
   <-> json_written (dump_all fs files).1 = files.*1) ∧
  ((dump_all fs files).2 = Ok () ∨ (dump_all fs files).2 = Raise OSError) ∧
  ((dump_all fs files).2 = Raise OSError ->
   ∃ path, can_open fs path = false ∧
     json_written (dump_all fs files).1 ++ [path] `prefix_of` files.*1).
Proof.
  induction files as [|[path value] files IH]; cbn [dump_all].
  - cbn. split; [reflexivity|]. split; [constructor|].
    split; [tauto|]. split; [left; reflexivity | discriminate].
  - destruct (can_open fs path) eqn:Hopen.
    + destruct (dump_all fs files) as [evs r]. cbn [fst snd] in *.
      destruct IH as (Hpre & Hall & Hiff & Hor & Hstop).
      cbn [json_written omap list_omap fmap list_fmap fst].
      change (list_omap _ _ ?f evs) with (omap f evs).
      fold (json_written evs).
      change (list_fmap _ _ fst files) with (files.*1).
      split; [apply prefix_cons, Hpre|].
      split; [constructor; assumption|].
      split; [rewrite Hiff; split; [intros ->; reflexivity
                                   | intros [= H]; exact H]|].
      split; [exact Hor|].
      intros Hr. destruct (Hstop Hr) as (p & Hp & Hpp).
      exists p. split; [exact Hp|]. cbn [app]. apply prefix_cons, Hpp.
    + cbn. split; [apply prefix_nil|]. split; [constructor|].
      split; [split; discriminate|]. split; [right; reflexivity|].
      intros _. exists path. split; [exact Hopen|].
      apply prefix_cons, prefix_nil.
Qed.

(** X19. [save_reports] writes its four files in order and stops at the
    first one that cannot be opened: the files written are an initial
    part of the four, all of them could be opened, and the method returns
    (and logs 'All reports saved successfully') exactly when all four
    have been written; otherwise it raises OSError and logs nothing, the
    files after the failing one being left unwritten. *)
Theorem save_reports_partial fs (a : agent)
    (summary quality_report metadata : pyval) :
  json_written (save_reports fs a summary quality_report metadata).1.1
    `prefix_of` [collected_data_json; collection_summary_json;
                 quality_report_json; metadata_json] ∧
  Forall (λ path, can_open fs path = true)
    (json_written (save_reports fs a summary quality_report metadata).1.1)
  ∧ ((save_reports fs a summary quality_report metadata).2 = Ok ()
     <-> json_written
           (save_reports fs a summary quality_report metadata).1.1
         = [collected_data_json; collection_summary_json;
            quality_report_json; metadata_json]) ∧
  ((save_reports fs a summary quality_report metadata).2 = Ok () ∧
   (save_reports fs a summary quality_report metadata).1.2
   = [(INFO, AllReportsSaved)]
   ∨ (save_reports fs a summary quality_report metadata).2 = Raise OSError
     ∧ (save_reports fs a summary quality_report metadata).1.2 = []).
Proof.
  unfold save_reports.
  destruct (can_makedirs fs json_outputs).
  - pose proof (dump_all_prefix fs
      [(collected_data_json, PList (PDict <$> data_store a));
       (collection_summary_json, summary);
       (quality_report_json, quality_report);
       (metadata_json, metadata)]) as (Hpre & Hall & Hiff & Hor & _).
    destruct (dump_all fs _) as [evs r]. cbn [fst snd] in *.
    destruct Hor as [-> | ->]; cbn [fst snd json_written omap list_omap];
      (split; [exact Hpre|]); (split; [exact Hall|]);
      (split; [exact Hiff|]).
    + left. split; reflexivity.
    + right. split; reflexivity.
  - cbn. split; [apply prefix_nil|]. split; [constructor|].
    split; [split; discriminate|]. right. split; reflexivity.
Qed.

End Reports.
